(** * The socket layer of the chat server (server.js)

    A shallow embedding of the Socket.io part of [server.js]: the [users]
    registry, [getRoomUsers] and the seven handlers installed on every
    socket ([joinRoom], [chatMessage], [privateMessage], [typing],
    [stopTyping], [leaveRoom], [disconnect]).

    - [users] is a plain JS object keyed by socket id.  [Object.values] and
      [Object.entries] walk it in insertion order (socket ids are 20
      characters long, so none is an array index), and two handlers depend
      on that order; it is an insertion-ordered association list here.
    - The Socket.io rooms are the adapter's map from a socket id to the set
      of rooms that socket is in: a [gmap] of [gset]s.  A socket enters the
      room named by its own id when it connects and has left every room by
      the time its [disconnect] handler runs; with the in-memory adapter
      [socket.join] and [socket.leave] take effect at once.
    - Every handler is a function from the world to the new world, the
      list of effects of its synchronous part, and the call it is awaiting
      (if any) together with the rest of the handler, which runs when that
      call settles, in the world as it is then.
    - Each [new Date()] is an argument of the handler that evaluates it. *)

From stdpp Require Import base strings list gmap sorting.
From Stdlib Require Import ZArith.

#[local] Set Warnings "-clear-no-such-hyp".

Local Open Scope string_scope.
Local Open Scope Z_scope.
Local Open Scope list_scope.

(** ** JS objects used as insertion-ordered maps *)

Module JSObject.
Section Obj.
Context {V : Type}.

(** [o[k]] *)
Fixpoint get (k : string) (o : list (string * V)) : option V :=
  match o with
  | [] => None
  | (k', v) :: o' => if decide (k' = k) then Some v else get k o'
  end.

(** [o[k] = v]: an existing key keeps its place, a new key goes last. *)
Fixpoint set (k : string) (v : V) (o : list (string * V)) : list (string * V) :=
  match o with
  | [] => [(k, v)]
  | (k', v') :: o' =>
      if decide (k' = k) then (k, v) :: o' else (k', v') :: set k v o'
  end.

(** [delete o[k]] *)
Fixpoint delete (k : string) (o : list (string * V)) : list (string * V) :=
  match o with
  | [] => []
  | (k', v') :: o' =>
      if decide (k' = k) then delete k o' else (k', v') :: delete k o'
  end.

(** [Object.values(o)] *)
Definition values (o : list (string * V)) : list V := map snd o.

(** [Object.entries(o).find(([, v]) => p(v))] *)
Fixpoint find_entry (p : V → bool) (o : list (string * V)) : option (string * V) :=
  match o with
  | [] => None
  | (k, v) :: o' => if p v then Some (k, v) else find_entry p o'
  end.

(** Keys are unique in a JS object. *)
Definition wf (o : list (string * V)) : Prop := NoDup (map fst o).
End Obj.
End JSObject.

(** ** Data *)

(** A value of [users]: [{ username, room }]. *)
Record session := Session { username : string; room : string }.

(** The payload of a ['message'] event.  The bot's notices have no [room]
    field, a group message has one. *)
Record message_data := MessageData {
  from_user : string;
  msg_room : option string;
  message : string;
  date_sent : Z
}.

(** The payload of a ['privateMessage'] event. *)
Record private_data := PrivateData {
  pm_from_user : string;
  pm_to_user : string;
  pm_message : string;
  pm_date_sent : Z
}.

(** What is emitted: the event name with its argument. *)
Inductive event :=
| EvMessage (m : message_data)
| EvRoomUsers (roster : list session)
| EvPreviousMessages (docs : list message_data)
| EvPrivateMessage (d : private_data)
| EvTyping (username : string)
| EvStopTyping.

(** Who it is emitted to. *)
Inductive target :=
| ToSocket (sid : string)                  (* socket.emit *)
| ToRoom (r : string)                      (* io.to(r).emit *)
| ToRoomExcept (r : string) (sid : string) (* socket.broadcast.to(r).emit *).

Inductive output :=
| Emit (t : target) (e : event)
| ConsoleLog (s : string)
| ConsoleError (s : string).

#[global] Instance session_eq_dec : EqDecision session.
Proof. solve_decision. Defined.
#[global] Instance message_data_eq_dec : EqDecision message_data.
Proof. solve_decision. Defined.
#[global] Instance private_data_eq_dec : EqDecision private_data.
Proof. solve_decision. Defined.
#[global] Instance event_eq_dec : EqDecision event.
Proof. solve_decision. Defined.
#[global] Instance target_eq_dec : EqDecision target.
Proof. solve_decision. Defined.
#[global] Instance output_eq_dec : EqDecision output.
Proof. solve_decision. Defined.

(** The server state: the [users] object and the adapter's rooms. *)
Record world := World {
  users : list (string * session);
  sids : gmap string (gset string)
}.

Definition initial : world := World [] ∅.

(** JS truthiness of a string, and of a field that may be missing. *)
Definition truthy (s : string) : bool := bool_decide (s ≠ "").

Definition truthy_opt (o : option string) : option string :=
  match o with
  | Some s => if truthy s then Some s else None
  | None => None
  end.

(** ** The transport: Socket.io rooms

    The adapter keeps, for every connected socket, the set of rooms it is
    in.  [Socket#join] adds a room, [Socket#leave] removes one (the room
    named by the socket's own id is not special-cased), a new socket starts
    in the room named by its id, and a closing socket is taken out of the
    adapter before its [disconnect] handler is called. *)

Definition in_room (w : world) (c r : string) : bool :=
  match sids w !! c with
  | Some rs => bool_decide (r ∈ rs)
  | None => false
  end.

Definition connected (w : world) (c : string) : bool :=
  bool_decide (is_Some (sids w !! c)).

Definition socket_join (c r : string) (w : world) : world :=
  World (users w) (<[c := default ∅ (sids w !! c) ∪ {[r]}]> (sids w)).

Definition socket_leave (c r : string) (w : world) : world :=
  World (users w) (alter (λ rs, rs ∖ {[r]}) c (sids w)).

Definition transport_open (c : string) (w : world) : world :=
  World (users w) (<[c := {[c]}]> (sids w)).

Definition transport_close (c : string) (w : world) : world :=
  World (users w) (delete c (sids w)).

(** Does connection [c] get what is emitted to [t] in world [w]?
    [socket.emit] reaches the socket while it is connected, [io.to(r)]
    every socket in room [r].  [socket.broadcast] excepts the room named
    by the sender's id: [socket.broadcast.to(r)] reaches every socket in
    room [r] that is not in that room (the sender is in it unless it has
    left it; a socket that has joined it is excepted with the sender). *)
Definition receives (w : world) (c : string) (t : target) : bool :=
  match t with
  | ToSocket s => bool_decide (c = s) && connected w c
  | ToRoom r => in_room w c r
  | ToRoomExcept r s => in_room w c r && negb (in_room w c s)
  end.

(** How many times connection [c] gets event [e] out of the effects [outs]
    performed in world [w]. *)
Definition reaches (w : world) (c : string) (e : event) (o : output) : bool :=
  match o with
  | Emit t e' => bool_decide (e' = e) && receives w c t
  | _ => false
  end.

Definition deliveries (w : world) (c : string) (e : event) (outs : list output) : nat :=
  length (List.filter (reaches w c e) outs).

(** The events emitted to clients, in order, without the server's log. *)
Definition emitted (outs : list output) : list (target * event) :=
  omap (λ o, match o with Emit t e => Some (t, e) | _ => None end) outs.

(** ** Calls into the models

    [GroupMessage] and [PrivateMessage] are Mongoose models; a handler
    awaits [save()] or a [find] query and goes on when the promise
    settles. *)

Inductive archive_call :=
| SaveGroup (d : message_data)             (* new GroupMessage(d).save() *)
| SavePrivate (d : private_data)           (* new PrivateMessage(d).save() *)
| FindGroup (r : string) (limit : nat)     (* GroupMessage.find({room}).sort({date_sent: 1}).limit(n) *).

Inductive archive_reply :=
| Resolved (docs : list message_data)
| Rejected.

(** The rest of a handler after its [await]: it gets the settled promise
    and the world as it is when it resumes. *)
Definition continuation : Type := archive_reply → world → list output.

Inductive task :=
| Done
| Await (call : archive_call) (k : continuation).

Definition result : Type := world * list output * task.

(** ** The handlers *)

Definition bot : string := "Chat App Bot".

Definition notice (text : string) (now : Z) : event :=
  EvMessage (MessageData bot None text now).

(** [getRoomUsers(room)] *)
Definition getRoomUsers (w : world) (r : string) : list session :=
  filter (λ u, room u = r) (JSObject.values (users w)).

Record join_payload := JoinPayload { j_username : string; j_room : string }.

Record private_payload := PrivatePayload { p_to_user : string; p_message : string }.

Record typing_payload := TypingPayload {
  ty_username : string;
  ty_room : option string;
  ty_to_user : option string
}.

Record stop_payload := StopPayload {
  st_room : option string;
  st_to_user : option string
}.

(** [socket.on('joinRoom', async ({ username, room }) => ...)] *)
Definition joinRoom (w : world) (sid : string) (p : join_payload)
    (t_left t_welcome t_joined : Z) : result :=
  let '(w1, leaving) :=
    match JSObject.get sid (users w) with
    | Some u =>
        if truthy (room u) then
          let prevRoom := room u in
          let w1 := socket_leave sid prevRoom w in
          (w1,
           [Emit (ToRoom prevRoom) (notice (username u +:+ " has left the chat") t_left);
            Emit (ToRoom prevRoom) (EvRoomUsers (getRoomUsers w1 prevRoom))])
        else (w, [])
    | None => (w, [])
    end in
  let w2 :=
    socket_join sid (j_room p)
      (World (JSObject.set sid (Session (j_username p) (j_room p)) (users w1)) (sids w1)) in
  (w2,
   leaving ++
   [Emit (ToSocket sid) (notice "Welcome to chat app :)" t_welcome);
    Emit (ToRoomExcept (j_room p) sid)
      (notice (j_username p +:+ " has joined the chat") t_joined);
    Emit (ToRoom (j_room p)) (EvRoomUsers (getRoomUsers w2 (j_room p)))],
   Await (FindGroup (j_room p) 50) (λ reply _,
     match reply with
     | Resolved previousMessages =>
         [Emit (ToSocket sid) (EvPreviousMessages previousMessages)]
     | Rejected => [ConsoleError "Error loading previous messages:"]
     end)).

(** [socket.on('chatMessage', async (msg) => ...)] *)
Definition chatMessage (w : world) (sid : string) (msg : string) (now : Z) : result :=
  match JSObject.get sid (users w) with
  | None => (w, [], Done)
  | Some user =>
      let messageData := MessageData (username user) (Some (room user)) msg now in
      (w, [],
       Await (SaveGroup messageData) (λ reply _,
         match reply with
         | Resolved _ => []
         | Rejected => [ConsoleError "Error saving message:"]
         end ++
         [Emit (ToRoom (room user)) (EvMessage messageData)]))
  end.

(** [socket.on('privateMessage', async ({ to_user, message }) => ...)] *)
Definition privateMessage (w : world) (sid : string) (p : private_payload) (now : Z)
    : result :=
  match JSObject.get sid (users w) with
  | None => (w, [], Done)
  | Some user =>
      let messageData := PrivateData (username user) (p_to_user p) (p_message p) now in
      (w, [],
       Await (SavePrivate messageData) (λ reply w',
         match reply with
         | Resolved _ => []
         | Rejected => [ConsoleError "Error saving private message:"]
         end ++
         match JSObject.find_entry (λ u, bool_decide (username u = p_to_user p)) (users w') with
         | Some recipientSocket =>
             [Emit (ToRoom recipientSocket.1) (EvPrivateMessage messageData)]
         | None => []
         end ++
         [Emit (ToSocket sid) (EvPrivateMessage messageData)]))
  end.

(** [socket.on('typing', ({ username, room, to_user }) => ...)] *)
Definition typing (w : world) (sid : string) (p : typing_payload) : result :=
  match truthy_opt (ty_to_user p) with
  | Some to_user =>
      match JSObject.find_entry (λ u, bool_decide (username u = to_user)) (users w) with
      | Some recipientSocket =>
          (w, [Emit (ToRoom recipientSocket.1) (EvTyping (ty_username p))], Done)
      | None => (w, [], Done)
      end
  | None =>
      match truthy_opt (ty_room p) with
      | Some r => (w, [Emit (ToRoomExcept r sid) (EvTyping (ty_username p))], Done)
      | None => (w, [], Done)
      end
  end.

(** [socket.on('stopTyping', ({ room, to_user }) => ...)] *)
Definition stopTyping (w : world) (sid : string) (p : stop_payload) : result :=
  match truthy_opt (st_to_user p) with
  | Some to_user =>
      match JSObject.find_entry (λ u, bool_decide (username u = to_user)) (users w) with
      | Some recipientSocket => (w, [Emit (ToRoom recipientSocket.1) EvStopTyping], Done)
      | None => (w, [], Done)
      end
  | None =>
      match truthy_opt (st_room p) with
      | Some r => (w, [Emit (ToRoomExcept r sid) EvStopTyping], Done)
      | None => (w, [], Done)
      end
  end.

(** [socket.on('leaveRoom', () => ...)] *)
Definition leaveRoom (w : world) (sid : string) (now : Z) : result :=
  match JSObject.get sid (users w) with
  | None => (w, [], Done)
  | Some user =>
      let w1 := socket_leave sid (room user) w in
      (World (JSObject.delete sid (users w1)) (sids w1),
       [Emit (ToRoom (room user)) (notice (username user +:+ " has left the chat") now);
        Emit (ToRoom (room user)) (EvRoomUsers (getRoomUsers w1 (room user)))],
       Done)
  end.

(** [socket.on('disconnect', () => ...)], called on a socket that the
    transport has already closed. *)
Definition disconnect (w : world) (sid : string) (now : Z) : result :=
  match JSObject.get sid (users w) with
  | Some user =>
      (World (JSObject.delete sid (users w)) (sids w),
       [Emit (ToRoom (room user)) (notice (username user +:+ " has left the chat") now);
        Emit (ToRoom (room user)) (EvRoomUsers (getRoomUsers w (room user)));
        ConsoleLog ("User disconnected: " +:+ sid)],
       Done)
  | None => (w, [ConsoleLog ("User disconnected: " +:+ sid)], Done)
  end.

(** [io.on('connection', (socket) => ...)] *)
Definition connection (w : world) (sid : string) : result :=
  (transport_open sid w, [ConsoleLog ("User connected: " +:+ sid)], Done).

(** The events a client can send on its socket. *)
Inductive inbound :=
| InJoinRoom (p : join_payload) (t_left t_welcome t_joined : Z)
| InChatMessage (msg : string) (now : Z)
| InPrivateMessage (p : private_payload) (now : Z)
| InTyping (p : typing_payload)
| InStopTyping (p : stop_payload)
| InLeaveRoom (now : Z).

Definition handle (w : world) (sid : string) (e : inbound) : result :=
  match e with
  | InJoinRoom p t_left t_welcome t_joined => joinRoom w sid p t_left t_welcome t_joined
  | InChatMessage msg now => chatMessage w sid msg now
  | InPrivateMessage p now => privateMessage w sid p now
  | InTyping p => typing w sid p
  | InStopTyping p => stopTyping w sid p
  | InLeaveRoom now => leaveRoom w sid now
  end.

(** The worlds the server can be in: sockets connect with an id that is
    not in use, send events while connected, and close. *)
Inductive reachable : world → Prop :=
| reach_initial : reachable initial
| reach_connection w sid :
    reachable w → sids w !! sid = None → reachable (connection w sid).1.1
| reach_inbound w sid e :
    reachable w → connected w sid = true → reachable (handle w sid e).1.1
| reach_disconnect w sid now :
    reachable w → connected w sid = true →
    reachable (disconnect (transport_close sid w) sid now).1.1.

(** A run of the server from its start, as the list of what happened. *)
Inductive step :=
| Connect (sid : string)
| Inbound (sid : string) (e : inbound)
| Close (sid : string) (now : Z).

Definition step_world (w : world) (s : step) : world :=
  match s with
  | Connect sid => (connection w sid).1.1
  | Inbound sid e => (handle w sid e).1.1
  | Close sid now => (disconnect (transport_close sid w) sid now).1.1
  end.

Definition step_ok (w : world) (s : step) : bool :=
  match s with
  | Connect sid => negb (connected w sid)
  | Inbound sid _ => connected w sid
  | Close sid _ => connected w sid
  end.

Fixpoint steps_ok (w : world) (l : list step) : bool :=
  match l with
  | [] => true
  | s :: l' => step_ok w s && steps_ok (step_world w s) l'
  end.

Definition run_from (w : world) (l : list step) : world := fold_left step_world l w.

Definition run (l : list step) : world := run_from initial l.

(** What a suspended handler does once its call has settled with [reply],
    the world being [w'] by then. *)
Definition resume (r : result) (reply : archive_reply) (w' : world) : list output :=
  match r.2 with
  | Done => []
  | Await _ k => k reply w'
  end.

(** The registry and the rooms agree: a socket with a session is in the
    room its session names. *)
Definition consistent (w : world) : Prop :=
  ∀ c s, JSObject.get c (users w) = Some s → in_room w c (room s) = true.

Definition invariant (w : world) : Prop :=
  JSObject.wf (users w) ∧ consistent w.

(** ** The archive

    The Mongoose models [GroupMessage] and [PrivateMessage] are required
    from ./models and stand for the Message Archive of the spec. *)

(** Modelled from the spec: the Message Archive holds the group and the
    direct messages appended so far (the model files ./models/GroupMessage
    and ./models/PrivateMessage are missing). *)
Record archive := Archive {
  group_messages : list message_data;
  private_messages : list private_data
}.

(** Modelled from the spec: the order of the history, oldest first (the
    query sorts on [date_sent], ascending). *)
Definition not_after (x y : message_data) : Prop := date_sent x ≤ date_sent y.

#[global] Instance not_after_dec : RelDecision not_after.
Proof. intros x y. unfold not_after. apply _. Defined.

(** Modelled from the spec: [recentFor(room, limit)], the records of a
    room, oldest first, capped. *)
Definition recentFor (a : archive) (r : string) (limit : nat) : list message_data :=
  take limit
    (merge_sort not_after
       (filter (λ m, msg_room m = Some r) (group_messages a))).

(** Modelled from the spec: how a call to the archive settles.
    [append(message)] acknowledges, and the record is in the archive, or
    fails, and the archive is as it was; a query resolves to the history
    or fails. *)
Definition settle (a : archive) (call : archive_call) (ok : bool)
    : archive * archive_reply :=
  if ok then
    match call with
    | SaveGroup d => (Archive (group_messages a ++ [d]) (private_messages a), Resolved [])
    | SavePrivate d => (Archive (group_messages a) (private_messages a ++ [d]), Resolved [])
    | FindGroup r limit => (a, Resolved (recentFor a r limit))
    end
  else (a, Rejected).

(** The server with the archive and the handlers that are suspended at an
    [await]. *)
Record config := Config {
  cfg_world : world;
  cfg_archive : archive;
  cfg_pending : list (archive_call * continuation)
}.

Definition suspended (t : task) : list (archive_call * continuation) :=
  match t with
  | Done => []
  | Await call k => [(call, k)]
  end.

(** A client event runs its handler up to the [await]. *)
Definition sys_inbound (cfg : config) (sid : string) (e : inbound) : config * list output :=
  let r := handle (cfg_world cfg) sid e in
  (Config r.1.1 (cfg_archive cfg) (cfg_pending cfg ++ suspended r.2), r.1.2).

(** The [i]-th pending call settles and its handler runs to the end. *)
Definition sys_settle (cfg : config) (i : nat) (ok : bool) : config * list output :=
  match cfg_pending cfg !! i with
  | None => (cfg, [])
  | Some (call, k) =>
      let '(a, reply) := settle (cfg_archive cfg) call ok in
      (Config (cfg_world cfg) a (delete i (cfg_pending cfg)), k reply (cfg_world cfg))
  end.

(** ** Scenarios *)

(** alice (socket s1) and bob (socket s2) in "sports". *)
Definition sports_steps : list step :=
  [Connect "s1"; Inbound "s1" (InJoinRoom (JoinPayload "alice" "sports") 1 2 3);
   Connect "s2"; Inbound "s2" (InJoinRoom (JoinPayload "bob" "sports") 4 5 6)].

Definition sports_world : world := run sports_steps.

(** The same, with a third socket that has connected and not joined. *)
Definition lurker_world : world := run (sports_steps ++ [Connect "s3"]).

(** bob first joined the room named by his own socket id, then "sports". *)
Definition own_room_steps : list step :=
  [Connect "s2"; Inbound "s2" (InJoinRoom (JoinPayload "bob" "s2") 1 2 3);
   Inbound "s2" (InJoinRoom (JoinPayload "bob" "sports") 4 5 6);
   Connect "s1"; Inbound "s1" (InJoinRoom (JoinPayload "alice" "sports") 7 8 9)].

Definition own_room_world : world := run own_room_steps.

(** alice joined the room named by her own socket id, then "sports". *)
Definition self_room_steps : list step :=
  [Connect "s1"; Inbound "s1" (InJoinRoom (JoinPayload "alice" "s1") 1 2 3);
   Inbound "s1" (InJoinRoom (JoinPayload "alice" "sports") 4 5 6)].

Definition self_room_world : world := run self_room_steps.

(** alice joined with an empty room name. *)
Definition blank_room_steps : list step :=
  [Connect "s1"; Inbound "s1" (InJoinRoom (JoinPayload "alice" "") 1 2 3)].

Definition blank_room_world : world := run blank_room_steps.

(** alice and bob in "sports", and a second socket (s3) that joined as bob. *)
Definition twin_steps : list step :=
  sports_steps ++
  [Connect "s3"; Inbound "s3" (InJoinRoom (JoinPayload "bob" "devops") 7 8 9)].

Definition twin_world : world := run twin_steps.



(** ** The REST routes

    The five [/api] routes.  A route calls the Mongoose models and sends
    one response; what a call gives back is not decided here, so a route
    is the tree of its calls, each with the rest of the route for either
    outcome of the call (its [try] block goes on, or its [catch] block
    runs). *)

Module Rest.

(** What a [catch] block looks at: [err.name], and [err.errors], the
    validation errors by path, each with its [message]. *)
Record js_error := JsError {
  err_name : string;
  err_errors : list (string * string)
}.

(** A [User] document, as far as the routes read it. *)
Record user_doc := UserDoc {
  u_username : string;
  u_firstname : string;
  u_lastname : string
}.

(** The calls into the models, with the type of what they give back.  A
    field of [req.body] is a string or is missing. *)
Inductive call : Type → Type :=
| UserFindOne (username : option string) : call (option user_doc)
| UserNew (username firstname lastname password : option string) : call user_doc
| UserSave (user : user_doc) : call unit
| UserComparePassword (user : user_doc) (password : option string) : call bool
| GroupMessageFind (room : string) (limit : nat) : call (list message_data)
| PrivateMessageFind (user1 user2 : string) (limit : nat) : call (list private_data).

Inductive outcome (A : Type) :=
| Returns (a : A)
| Throws (err : js_error).

Arguments Returns {A} a.
Arguments Throws {A} err.

(** The JSON bodies the routes send. *)
Inductive body :=
| ErrorBody (error : string)
| SignupBody (message username : string)
| LoginBody (message username firstname lastname : string)
| RoomsBody (rooms : list string)
| GroupMessagesBody (docs : list message_data)
| PrivateMessagesBody (docs : list private_data).

(** [res.status(status).json(body)]; [res.json(body)] has status 200. *)
Record response := Response { status : nat; json : body }.

Inductive route :=
| Respond (r : response)
| Await {A : Type} (c : call A) (k : outcome A → route).

Inductive any_call :=
| AnyCall {A : Type} (c : call A).

(** The models, as a function that answers every call. *)
Definition models : Type := ∀ A, call A → outcome A.

(** The response of a route, and the calls it makes, in order. *)
Fixpoint run (o : models) (p : route) : response :=
  match p with
  | Respond r => r
  | Await c k => run o (k (o _ c))
  end.

Fixpoint calls (o : models) (p : route) : list any_call :=
  match p with
  | Respond _ => []
  | Await c k => AnyCall c :: calls o (k (o _ c))
  end.

Definition ROOMS : list string :=
  ["devops"; "cloud computing"; "covid19"; "sports"; "nodeJS"].

Definition server_error : route := Respond (Response 500 (ErrorBody "Server error")).

(** The [catch] block of [/api/signup]. *)
Definition signup_catch (err : js_error) : route :=
  if decide (err_name err = "ValidationError") then
    let messages := JSObject.values (err_errors err) in
    Respond (Response 400 (ErrorBody (String.concat ", " messages)))
  else server_error.

(** [req.body]: its fields, each a string or missing, or no body at all
    (what [req.body] is when nothing was parsed depends on the Express
    version: an empty object, all fields missing, or [undefined]). *)
Record signup_body := SignupFields {
  b_username : option string;
  b_firstname : option string;
  b_lastname : option string;
  b_password : option string
}.

Record login_body := LoginFields {
  l_username : option string;
  l_password : option string
}.

(** Destructuring [undefined] throws a [TypeError], inside the [try]. *)
Definition no_body : js_error := JsError "TypeError" [].

(** [app.post('/api/signup', ...)] *)
Definition signup (req_body : option signup_body) : route :=
  match req_body with
  | None => signup_catch no_body
  | Some b =>
      Await (UserFindOne (b_username b)) (λ found,
        match found with
        | Throws err => signup_catch err
        | Returns (Some existingUser) =>
            Respond (Response 400 (ErrorBody "Username already exists"))
        | Returns None =>
            Await (UserNew (b_username b) (b_firstname b) (b_lastname b) (b_password b))
              (λ made,
                match made with
                | Throws err => signup_catch err
                | Returns user =>
                    Await (UserSave user) (λ saved,
                      match saved with
                      | Throws err => signup_catch err
                      | Returns _ =>
                          Respond (Response 201
                            (SignupBody "User created successfully" (u_username user)))
                      end)
                end)
        end)
  end.

Definition invalid_login : route :=
  Respond (Response 401 (ErrorBody "Invalid username or password")).

(** [app.post('/api/login', ...)] *)
Definition login (req_body : option login_body) : route :=
  match req_body with
  | None => server_error
  | Some b =>
      Await (UserFindOne (l_username b)) (λ found,
        match found with
        | Throws _ => server_error
        | Returns None => invalid_login
        | Returns (Some user) =>
            Await (UserComparePassword user (l_password b)) (λ matched,
              match matched with
              | Throws _ => server_error
              | Returns false => invalid_login
              | Returns true =>
                  Respond (Response 200
                    (LoginBody "Login successful"
                       (u_username user) (u_firstname user) (u_lastname user)))
              end)
        end)
  end.

(** [app.get('/api/rooms', ...)] *)
Definition rooms : route := Respond (Response 200 (RoomsBody ROOMS)).

(** [app.get('/api/messages/:room', ...)] *)
Definition messages (room : string) : route :=
  Await (GroupMessageFind room 100) (λ found,
    match found with
    | Returns messages => Respond (Response 200 (GroupMessagesBody messages))
    | Throws _ => server_error
    end).

(** [app.get('/api/private-messages/:user1/:user2', ...)] *)
Definition private_messages_between (user1 user2 : string) : route :=
  Await (PrivateMessageFind user1 user2 100) (λ found,
    match found with
    | Returns messages => Respond (Response 200 (PrivateMessagesBody messages))
    | Throws _ => server_error
    end).

(** Modelled from the spec: the order of a conversation, oldest first. *)
Definition pm_not_after (x y : private_data) : Prop := pm_date_sent x ≤ pm_date_sent y.

#[global] Instance pm_not_after_dec : RelDecision pm_not_after.
Proof. intros x y. unfold pm_not_after. apply _. Defined.

(** The filter of the query of [/api/private-messages]: from the one to
    the other, either way. *)
Definition between (user1 user2 : string) (d : private_data) : Prop :=
  (pm_from_user d = user1 ∧ pm_to_user d = user2) ∨
  (pm_from_user d = user2 ∧ pm_to_user d = user1).

#[global] Instance between_dec user1 user2 d : Decision (between user1 user2 d).
Proof. unfold between. apply _. Defined.

(** Modelled from the spec: [recentFor(identityPair, limit)], the direct
    messages between two identities, oldest first, capped. *)
Definition conversation (a : archive) (user1 user2 : string) (limit : nat)
    : list private_data :=
  take limit (merge_sort pm_not_after (filter (between user1 user2) (private_messages a))).

(** Modelled from the spec: models whose two message queries are answered
    from the archive [a]. *)
Definition answers_from (a : archive) (o : models) : Prop :=
  (∀ r n, o _ (GroupMessageFind r n) = Returns (recentFor a r n)) ∧
  (∀ x y n, o _ (PrivateMessageFind x y n) = Returns (conversation a x y n)).

(** Models for the examples: carol is the one account, her password is
    "secret"; saving never fails; the message queries are answered from
    the archive [a]. *)
Definition carol : user_doc := UserDoc "carol" "Carol" "Jones".

Definition models_over (a : archive) : models := λ A c,
  match c in call T return outcome T with
  | UserFindOne username =>
      Returns (if decide (username = Some "carol") then Some carol else None)
  | UserNew username firstname lastname _ =>
      Returns (UserDoc (default "" username) (default "" firstname) (default "" lastname))
  | UserSave _ => Returns ()
  | UserComparePassword _ password => Returns (bool_decide (password = Some "secret"))
  | GroupMessageFind r n => Returns (recentFor a r n)
  | PrivateMessageFind x y n => Returns (conversation a x y n)
  end.

Definition demo_models : models := models_over (Archive [] []).

(** An archive for the examples: three messages in "sports", saved out of
    date order, one in "devops"; two direct messages between alice and
    bob and one from alice to carol. *)
Definition sample_archive : archive :=
  Archive
    [MessageData "alice" (Some "sports") "second" 20;
     MessageData "bob" (Some "devops") "elsewhere" 5;
     MessageData "bob" (Some "sports") "first" 10;
     MessageData "alice" (Some "sports") "third" 30]
    [PrivateData "bob" "alice" "reply" 40;
     PrivateData "alice" "carol" "aside" 35;
     PrivateData "alice" "bob" "hello" 30].

End Rest.

(** * Facts *)

(** ** JS objects *)

Section ObjFacts.
Context {V : Type}.
Implicit Types (o : list (string * V)) (k : string) (v : V).

Lemma get_set_eq k v o : JSObject.get k (JSObject.set k v o) = Some v.
Proof.
  induction o as [|[k' v'] o IH]; simpl.
  - by rewrite decide_True.
  - destruct (decide (k' = k)) as [->|Hne]; simpl.
    + by rewrite decide_True.
    + by rewrite decide_False.
Qed.

Lemma get_set_ne k k' v o :
  k' ≠ k → JSObject.get k' (JSObject.set k v o) = JSObject.get k' o.
Proof.
  intros Hne. induction o as [|[k1 v1] o IH]; simpl.
  - by rewrite decide_False.
  - destruct (decide (k1 = k)) as [->|Hk]; simpl.
    + by rewrite !decide_False.
    + by rewrite IH.
Qed.

Lemma get_delete_eq k o : JSObject.get k (JSObject.delete k o) = None.
Proof.
  induction o as [|[k' v'] o IH]; simpl; [done|].
  destruct (decide (k' = k)); simpl; [done|]. by rewrite decide_False.
Qed.

Lemma get_delete_ne k k' o :
  k' ≠ k → JSObject.get k' (JSObject.delete k o) = JSObject.get k' o.
Proof.
  intros Hne. induction o as [|[k1 v1] o IH]; simpl; [done|].
  destruct (decide (k1 = k)) as [->|Hk]; simpl.
  - by rewrite decide_False.
  - by rewrite IH.
Qed.

Lemma get_Some_elem k v o : JSObject.get k o = Some v → (k, v) ∈ o.
Proof.
  induction o as [|[k' v'] o IH]; simpl; [done|].
  destruct (decide (k' = k)) as [->|Hk].
  - intros [= ->]. left.
  - intros H. right. by apply IH.
Qed.

Lemma get_None_keys k o : JSObject.get k o = None ↔ k ∉ map fst o.
Proof.
  induction o as [|[k' v'] o IH]; simpl.
  - split; [intros _; apply not_elem_of_nil | done].
  - rewrite not_elem_of_cons. destruct (decide (k' = k)) as [->|Hk].
    + split; [done | by intros [? _]].
    + rewrite IH. naive_solver.
Qed.

Lemma elem_get k v o : JSObject.wf o → (k, v) ∈ o → JSObject.get k o = Some v.
Proof.
  unfold JSObject.wf. induction o as [|[k' v'] o IH]; simpl.
  - intros _ H. by apply elem_of_nil in H.
  - rewrite NoDup_cons. intros [Hnotin Hnd] Hin.
    apply elem_of_cons in Hin as [[= -> ->]|Hin].
    + by rewrite decide_True.
    + destruct (decide (k' = k)) as [->|Hk]; [|by apply IH].
      exfalso. apply Hnotin. apply list_elem_of_fmap. by exists (k, v).
Qed.

Lemma keys_set k v o x :
  x ∈ map fst (JSObject.set k v o) ↔ x = k ∨ x ∈ map fst o.
Proof.
  induction o as [|[k' v'] o IH]; simpl.
  - rewrite elem_of_cons. naive_solver.
  - destruct (decide (k' = k)) as [->|Hk]; simpl.
    + rewrite elem_of_cons. naive_solver.
    + rewrite !elem_of_cons, IH. naive_solver.
Qed.

Lemma wf_set k v o : JSObject.wf o → JSObject.wf (JSObject.set k v o).
Proof.
  unfold JSObject.wf. induction o as [|[k' v'] o IH]; simpl.
  - intros _. apply NoDup_singleton.
  - rewrite NoDup_cons. intros [Hnotin Hnd].
    destruct (decide (k' = k)) as [->|Hk]; simpl.
    + by apply NoDup_cons.
    + apply NoDup_cons. split; [|by apply IH].
      rewrite keys_set. naive_solver.
Qed.

Lemma keys_delete k o x :
  x ∈ map fst (JSObject.delete k o) → x ∈ map fst o.
Proof.
  induction o as [|[k' v'] o IH]; simpl; [done|].
  destruct (decide (k' = k)); simpl; rewrite ?elem_of_cons; naive_solver.
Qed.

Lemma wf_delete k o : JSObject.wf o → JSObject.wf (JSObject.delete k o).
Proof.
  unfold JSObject.wf. induction o as [|[k' v'] o IH]; simpl; [done|].
  rewrite NoDup_cons. intros [Hnotin Hnd].
  destruct (decide (k' = k)); simpl; [by apply IH|].
  apply NoDup_cons. split; [|by apply IH].
  intros Hin. by apply Hnotin, (keys_delete k).
Qed.

Lemma find_entry_Some (p : V → bool) o k v :
  JSObject.find_entry p o = Some (k, v) → (k, v) ∈ o ∧ p v = true.
Proof.
  induction o as [|[k' v'] o IH]; simpl; [done|].
  destruct (p v') eqn:Hp.
  - intros [= -> ->]. split; [left | done].
  - intros H. destruct (IH H) as [Hin Hv]. split; [by right | done].
Qed.

Lemma find_entry_None (p : V → bool) o :
  JSObject.find_entry p o = None ↔ ∀ k v, (k, v) ∈ o → p v = false.
Proof.
  induction o as [|[k' v'] o IH]; simpl.
  - split; [|done]. intros _ k v H. by apply elem_of_nil in H.
  - destruct (p v') eqn:Hp.
    + split; [done|]. intros H. specialize (H k' v'). rewrite Hp in H.
      discriminate H. left.
    + rewrite IH. split.
      * intros H k v Hin. apply elem_of_cons in Hin as [[= -> ->]|Hin]; eauto.
      * intros H k v Hin. apply (H k). by right.
Qed.
End ObjFacts.

(** ** Rooms *)

Lemma in_room_join_eq w c r : in_room (socket_join c r w) c r = true.
Proof.
  unfold in_room, socket_join; simpl. rewrite lookup_insert_eq.
  apply bool_decide_eq_true. set_solver.
Qed.

Lemma in_room_join_ne w c c' r r' :
  c' ≠ c → in_room (socket_join c r w) c' r' = in_room w c' r'.
Proof. intros Hne. unfold in_room, socket_join; simpl. by rewrite lookup_insert_ne. Qed.

Lemma in_room_leave_ne w c c' r r' :
  c' ≠ c → in_room (socket_leave c r w) c' r' = in_room w c' r'.
Proof. intros Hne. unfold in_room, socket_leave; simpl. by rewrite lookup_alter_ne. Qed.

Lemma in_room_leave_eq w c r : in_room (socket_leave c r w) c r = false.
Proof.
  unfold in_room, socket_leave; simpl. rewrite lookup_alter_eq.
  destruct (sids w !! c); simpl; [|done].
  apply bool_decide_eq_false. set_solver.
Qed.

Lemma in_room_open_ne w c c' r :
  c' ≠ c → in_room (transport_open c w) c' r = in_room w c' r.
Proof. intros Hne. unfold in_room, transport_open; simpl. by rewrite lookup_insert_ne. Qed.

Lemma in_room_close_ne w c c' r :
  c' ≠ c → in_room (transport_close c w) c' r = in_room w c' r.
Proof. intros Hne. unfold in_room, transport_close; simpl. by rewrite lookup_delete_ne. Qed.

Lemma in_room_connected w c r : in_room w c r = true → connected w c = true.
Proof.
  unfold in_room, connected. destruct (sids w !! c) eqn:E; [|done].
  intros _. apply bool_decide_eq_true. eauto.
Qed.

Lemma connected_lookup w c : connected w c = false ↔ sids w !! c = None.
Proof.
  unfold connected. rewrite bool_decide_eq_false, <- eq_None_not_Some. done.
Qed.

(** Neither [socket.join] nor [socket.leave] touches [users]. *)
Lemma getRoomUsers_leave w c r r' :
  getRoomUsers (socket_leave c r w) r' = getRoomUsers w r'.
Proof. reflexivity. Qed.

(** ** The invariant of the server *)

Lemma invariant_initial : invariant initial.
Proof. split; [apply NoDup_nil_2 | intros c s H; discriminate H]. Qed.

Lemma invariant_connection w sid :
  invariant w → sids w !! sid = None → invariant (connection w sid).1.1.
Proof.
  intros [Hwf Hc] Hnew. split; [done|]. intros c s Hget. simpl in *.
  destruct (decide (c = sid)) as [->|Hne].
  - apply Hc in Hget. unfold in_room in Hget. by rewrite Hnew in Hget.
  - rewrite in_room_open_ne by done. by apply Hc.
Qed.

Lemma invariant_joinRoom w sid p t1 t2 t3 :
  invariant w → invariant (joinRoom w sid p t1 t2 t3).1.1.
Proof.
  intros [Hwf Hc]. unfold joinRoom.
  assert (∀ w1, users w1 = users w →
            (∀ c r, c ≠ sid → in_room w1 c r = in_room w c r) →
            invariant (socket_join sid (j_room p)
              (World (JSObject.set sid (Session (j_username p) (j_room p)) (users w1))
                 (sids w1)))) as Hstep.
  { intros w1 Hu Hr. split; simpl.
    - rewrite Hu. by apply wf_set.
    - intros c s. simpl. rewrite Hu. destruct (decide (c = sid)) as [->|Hne].
      + rewrite get_set_eq. intros [= <-]. simpl. apply in_room_join_eq.
      + rewrite get_set_ne by done. intros Hget.
        rewrite in_room_join_ne by done. unfold in_room; simpl.
        specialize (Hr c (room s) Hne). unfold in_room in Hr. rewrite Hr.
        by apply Hc. }
  destruct (JSObject.get sid (users w)) as [u|]; [destruct (truthy (room u))|]; simpl.
  - apply (Hstep (socket_leave sid (room u) w)); [done|].
    intros c r Hne. by apply in_room_leave_ne.
  - by apply (Hstep w).
  - by apply (Hstep w).
Qed.

Lemma invariant_leaveRoom w sid now :
  invariant w → invariant (leaveRoom w sid now).1.1.
Proof.
  intros [Hwf Hc]. unfold leaveRoom.
  destruct (JSObject.get sid (users w)) as [u|] eqn:Hu; simpl; [|done].
  split; simpl; [by apply wf_delete|].
  intros c s. simpl. destruct (decide (c = sid)) as [->|Hne].
  - by rewrite get_delete_eq.
  - rewrite get_delete_ne by done. intros Hget.
    change (in_room (socket_leave sid (room u) w) c (room s) = true).
    rewrite in_room_leave_ne by done. by apply Hc.
Qed.

Lemma invariant_handle w sid e : invariant w → invariant (handle w sid e).1.1.
Proof.
  intros Hinv. destruct e as [p t1 t2 t3|msg now|p now|p|p|now]; simpl.
  - by apply invariant_joinRoom.
  - unfold chatMessage. by destruct (JSObject.get sid (users w)).
  - unfold privateMessage. by destruct (JSObject.get sid (users w)).
  - unfold typing.
    destruct (truthy_opt (ty_to_user p)); [destruct (JSObject.find_entry _ _)|
      destruct (truthy_opt (ty_room p))]; done.
  - unfold stopTyping.
    destruct (truthy_opt (st_to_user p)); [destruct (JSObject.find_entry _ _)|
      destruct (truthy_opt (st_room p))]; done.
  - by apply invariant_leaveRoom.
Qed.

Lemma invariant_disconnect w sid now :
  invariant w → invariant (disconnect (transport_close sid w) sid now).1.1.
Proof.
  intros [Hwf Hc]. unfold disconnect. simpl.
  destruct (JSObject.get sid (users w)) as [u|] eqn:Hu; simpl.
  - split; simpl; [by apply wf_delete|]. intros c s. simpl.
    destruct (decide (c = sid)) as [->|Hne].
    + by rewrite get_delete_eq.
    + rewrite get_delete_ne by done. intros Hget.
      change (in_room (transport_close sid w) c (room s) = true).
      rewrite in_room_close_ne by done. by apply Hc.
  - split; [done|]. intros c s Hget. simpl in Hget.
    destruct (decide (c = sid)) as [->|Hne]; [congruence|].
    rewrite in_room_close_ne by done. by apply Hc.
Qed.

Lemma reachable_invariant w : reachable w → invariant w.
Proof.
  induction 1 as [|w sid _ IH Hnew|w sid e _ IH _|w sid now _ IH _].
  - apply invariant_initial.
  - by apply invariant_connection.
  - by apply invariant_handle.
  - by apply invariant_disconnect.
Qed.

(** A run whose steps are all possible ends in a reachable world. *)
Lemma run_from_reachable l : ∀ w,
  reachable w → steps_ok w l = true → reachable (run_from w l).
Proof.
  induction l as [|s l IH]; intros w Hw Hok; simpl in *; [done|].
  apply andb_true_iff in Hok as [Hs Hl]. apply IH; [|done].
  destruct s as [sid|sid e|sid now]; simpl in *.
  - apply reach_connection; [done|]. apply connected_lookup.
    by apply negb_true_iff.
  - by apply reach_inbound.
  - by apply reach_disconnect.
Qed.

Lemma run_reachable l : steps_ok initial l = true → reachable (run l).
Proof. apply run_from_reachable, reach_initial. Qed.

(** * Properties of the handlers *)

(** Whoever has a session is listed in the roster of the room of that
    session. *)
Lemma session_in_roster w sid u :
  JSObject.get sid (users w) = Some u → u ∈ getRoomUsers w (room u).
Proof.
  intros Hget. unfold getRoomUsers, JSObject.values.
  apply list_elem_of_filter. split; [done|].
  apply list_elem_of_fmap. exists (sid, u). split; [done|].
  by apply get_Some_elem.
Qed.

(** The roster that [leaveRoom] and [disconnect] emit is computed while the
    departing session is still in [users], so it lists that session. *)
Lemma departure_roster_is_stale w sid u now :
  JSObject.get sid (users w) = Some u →
  emitted (leaveRoom w sid now).1.2 =
    [(ToRoom (room u), notice (username u +:+ " has left the chat") now);
     (ToRoom (room u), EvRoomUsers (getRoomUsers w (room u)))] ∧
  emitted (disconnect (transport_close sid w) sid now).1.2 =
    [(ToRoom (room u), notice (username u +:+ " has left the chat") now);
     (ToRoom (room u), EvRoomUsers (getRoomUsers w (room u)))] ∧
  u ∈ getRoomUsers w (room u).
Proof.
  intros Hget. unfold leaveRoom, disconnect. simpl. rewrite Hget. simpl.
  repeat split. by apply (session_in_roster w sid).
Qed.

(** C1 (fails on the code): when bob (socket s2) leaves "sports", or his
    socket closes, the roster sent to "sports" is [alice; bob]: it still
    lists bob, the session that has just left. *)
Theorem C1_departure_roster_still_lists_leaver :
  JSObject.get "s2" (users sports_world) = Some (Session "bob" "sports") ∧
  emitted (leaveRoom sports_world "s2" 7).1.2 =
    [(ToRoom "sports", notice "bob has left the chat" 7);
     (ToRoom "sports",
      EvRoomUsers [Session "alice" "sports"; Session "bob" "sports"])] ∧
  emitted (disconnect (transport_close "s2" sports_world) "s2" 7).1.2 =
    [(ToRoom "sports", notice "bob has left the chat" 7);
     (ToRoom "sports",
      EvRoomUsers [Session "alice" "sports"; Session "bob" "sports"])].
Proof. repeat split; vm_compute; reflexivity. Qed.



(** Counting what a connection gets, one effect at a time. *)
Lemma deliveries_cons w c e o outs :
  deliveries w c e (o :: outs) =
    ((if reaches w c e o then 1 else 0) + deliveries w c e outs)%nat.
Proof. unfold deliveries. simpl. by destruct (reaches w c e o). Qed.

Lemma deliveries_nil w c e : deliveries w c e [] = 0%nat.
Proof. reflexivity. Qed.

Lemma deliveries_app w c e outs1 outs2 :
  deliveries w c e (outs1 ++ outs2) =
    (deliveries w c e outs1 + deliveries w c e outs2)%nat.
Proof. unfold deliveries. by rewrite List.filter_app, length_app. Qed.

Lemma reaches_emit w c e t : reaches w c e (Emit t e) = receives w c t.
Proof. unfold reaches. by rewrite bool_decide_true. Qed.

(** What is written to the server's console reaches no client. *)
Lemma deliveries_log w c e (reply : archive_reply) (text : string) :
  deliveries w c e
    match reply with Resolved _ => [] | Rejected => [ConsoleError text] end = 0%nat.
Proof. by destruct reply. Qed.

Lemma emitted_log (reply : archive_reply) (text : string) outs :
  emitted
    (match reply with Resolved _ => [] | Rejected => [ConsoleError text] end ++ outs) =
  emitted outs.
Proof. by destruct reply. Qed.

(** C3 (fails on the code as stated): alice (socket s1) sends "hi" in
    "sports"; while the save is pending she joins "devops"; when the save
    has settled the message goes to room "sports": bob gets it once and
    alice, the sender, does not get it. *)
Lemma C3_counterexample_sender_moved_during_save :
  let moved :=
    run (sports_steps ++ [Inbound "s1" (InJoinRoom (JoinPayload "alice" "devops") 7 8 9)]) in
  let ev := EvMessage (MessageData "alice" (Some "sports") "hi" 6) in
  let outs := resume (chatMessage sports_world "s1" "hi" 6) (Resolved []) moved in
  reachable sports_world ∧
  JSObject.get "s1" (users sports_world) = Some (Session "alice" "sports") ∧
  reachable moved ∧
  deliveries moved "s1" ev outs = 0%nat ∧
  deliveries moved "s2" ev outs = 1%nat.
Proof.
  split; [apply run_reachable; vm_compute; reflexivity|].
  split; [vm_compute; reflexivity|].
  split; [apply run_reachable; vm_compute; reflexivity|].
  split; vm_compute; reflexivity.
Qed.

(** C3 (as amended): a group message from a socket whose session has
    identity u and room R is handed to the archive and, once that call has
    settled, emitted once to room R, stamped with sender u and room R.
    Every connection whose session is in R at that time gets it exactly
    once, the sending connection among them if its session is still in R;
    a connection that is not in room R then gets nothing; and when the
    world has not changed since the message was sent, the sender gets it
    exactly once. *)
Theorem C3_group_message_once_to_room w sid u msg now :
  JSObject.get sid (users w) = Some u →
  reachable w →
  let data := MessageData (username u) (Some (room u)) msg now in
  ∃ k,
    chatMessage w sid msg now = (w, [], Await (SaveGroup data) k) ∧
    ∀ reply,
      (∀ w', reachable w' →
         emitted (k reply w') = [(ToRoom (room u), EvMessage data)] ∧
         (∀ c s, JSObject.get c (users w') = Some s → room s = room u →
            deliveries w' c (EvMessage data) (k reply w') = 1%nat) ∧
         (∀ s, JSObject.get sid (users w') = Some s → room s = room u →
            deliveries w' sid (EvMessage data) (k reply w') = 1%nat) ∧
         (∀ c, in_room w' c (room u) = false →
            deliveries w' c (EvMessage data) (k reply w') = 0%nat)) ∧
      deliveries w sid (EvMessage data) (k reply w) = 1%nat.
Proof.
  intros Hget Hreach data. unfold chatMessage. rewrite Hget.
  eexists. split; [reflexivity|].
  assert (∀ reply w', reachable w' →
            ∀ c s, JSObject.get c (users w') = Some s → room s = room u →
              deliveries w' c (EvMessage data)
                (match reply with
                 | Resolved _ => []
                 | Rejected => [ConsoleError "Error saving message:"]
                 end ++ [Emit (ToRoom (room u)) (EvMessage data)]) = 1%nat) as Hone.
  { intros reply w' Hw' c s Hc Hroom.
    rewrite deliveries_app, deliveries_log, deliveries_cons, reaches_emit.
    simpl. rewrite <- Hroom.
    destruct (reachable_invariant w' Hw') as [_ Hcons].
    by rewrite (Hcons c s Hc). }
  intros reply. split.
  - intros w' Hw'. split; [apply emitted_log|]. split; [by apply Hone|].
    split; [intros s; by apply Hone|].
    intros c Hout. cbv beta.
    rewrite deliveries_app, deliveries_log, deliveries_cons, reaches_emit.
    simpl. by rewrite Hout.
  - by apply (Hone reply w Hreach sid u).
Qed.

(** The two-member room is a world of the server. *)
Lemma sports_world_reachable : reachable sports_world.
Proof. apply run_reachable. vm_compute. reflexivity. Defined.

(** alice says "hi" in "sports": bob, whose session is in "sports" when
    the save has settled, gets it once, and so does alice when nothing
    has changed. *)
Lemma C3_group_message_once_to_room_witness :
  ∃ k,
    chatMessage sports_world "s1" "hi" 7 =
      (sports_world, [],
       Await (SaveGroup (MessageData "alice" (Some "sports") "hi" 7)) k) ∧
    ∀ reply,
      deliveries sports_world "s2" (EvMessage (MessageData "alice" (Some "sports") "hi" 7))
        (k reply sports_world) = 1%nat ∧
      deliveries sports_world "s1" (EvMessage (MessageData "alice" (Some "sports") "hi" 7))
        (k reply sports_world) = 1%nat.
Proof.
  destruct (C3_group_message_once_to_room sports_world "s1" (Session "alice" "sports")
              "hi" 7) as (k & Hk & Hres); [reflexivity | apply sports_world_reachable |].
  exists k. split; [exact Hk|]. intros reply.
  destruct (Hres reply) as [Hsettled Hsender]. split; [|exact Hsender].
  destruct (Hsettled sports_world sports_world_reachable) as (_ & Hbound & _).
  apply (Hbound "s2" (Session "bob" "sports")); reflexivity.
Defined.

(** With unique keys, the sessions of [users] are its entries. *)
Lemma live_session_found w (who : string) :
  JSObject.wf (users w) →
  (∃ c s, JSObject.get c (users w) = Some s ∧ username s = who) →
  ∃ rid s,
    JSObject.find_entry (λ u, bool_decide (username u = who)) (users w) = Some (rid, s) ∧
    JSObject.get rid (users w) = Some s ∧ username s = who.
Proof.
  intros Hwf (c & s & Hget & Hname).
  destruct (JSObject.find_entry _ (users w)) as [[rid s']|] eqn:Hfind.
  - exists rid, s'. apply find_entry_Some in Hfind as [Hin Hp].
    apply bool_decide_eq_true in Hp. split; [done|]. split; [|done].
    by apply elem_get.
  - exfalso. rewrite find_entry_None in Hfind.
    apply get_Some_elem in Hget. apply Hfind in Hget.
    apply bool_decide_eq_false in Hget. done.
Qed.

Lemma no_live_session_not_found w (who : string) :
  ¬ (∃ c s, JSObject.get c (users w) = Some s ∧ username s = who) →
  JSObject.wf (users w) →
  JSObject.find_entry (λ u, bool_decide (username u = who)) (users w) = None.
Proof.
  intros Hnone Hwf. apply find_entry_None. intros k v Hin.
  apply bool_decide_eq_false. intros Hname. apply Hnone.
  exists k, v. split; [by apply elem_get | done].
Qed.

(** C4 (fails on the code as stated): bob (socket s2) has a live session,
    but his socket joined the room named "s2" and left it again when it
    moved to "sports"; alice's direct message to bob is emitted to room
    "s2", where nobody is, and reaches no connection of bob. *)
Lemma C4_counterexample_recipient_left_own_room :
  let ev := EvPrivateMessage (PrivateData "alice" "bob" "hi" 10) in
  let outs :=
    resume (privateMessage own_room_world "s1" (PrivatePayload "bob" "hi") 10)
      (Resolved []) own_room_world in
  reachable own_room_world ∧
  JSObject.get "s1" (users own_room_world) = Some (Session "alice" "sports") ∧
  JSObject.get "s2" (users own_room_world) = Some (Session "bob" "sports") ∧
  ¬ (∃ c s, JSObject.get c (users own_room_world) = Some s ∧ username s = "bob" ∧
            (0 < deliveries own_room_world c ev outs)%nat).
Proof.
  split; [apply run_reachable; vm_compute; reflexivity|].
  split; [vm_compute; reflexivity|]. split; [vm_compute; reflexivity|].
  intros (c & s & Hget & Hname & Hpos).
  assert (users own_room_world =
            [("s2", Session "bob" "sports"); ("s1", Session "alice" "sports")]) as Hu
    by (vm_compute; reflexivity).
  rewrite Hu in Hget. simpl in Hget.
  destruct (decide ("s2" = c)) as [<-|_].
  - vm_compute in Hpos. lia.
  - destruct (decide ("s1" = c)); [|done].
    injection Hget as <-. discriminate Hname.
Qed.

(** C4 (as amended): a direct message from a socket with a session is
    handed to the archive; when that call has settled, in the world [w']
    of that moment:
    - if some live session is bound to the recipient identity, the message
      is emitted to the room named by the socket id of the first such
      session of the registry and then to the sender's socket, and that
      recipient socket gets it provided it is in the room named by its id;
    - if no live session is bound to the recipient identity, only the echo
      to the sender's socket is emitted, and no other connection gets the
      message;
    - in both cases the sender's socket gets the echo if still connected. *)
Theorem C4_direct_message_delivery w sid u p now :
  JSObject.get sid (users w) = Some u →
  let ev := EvPrivateMessage (PrivateData (username u) (p_to_user p) (p_message p) now) in
  ∃ k,
    privateMessage w sid p now =
      (w, [],
       Await (SavePrivate (PrivateData (username u) (p_to_user p) (p_message p) now)) k) ∧
    ∀ reply w', reachable w' →
      let live := ∃ c s, JSObject.get c (users w') = Some s ∧ username s = p_to_user p in
      (live →
         ∃ rid s,
           JSObject.find_entry (λ u', bool_decide (username u' = p_to_user p)) (users w')
             = Some (rid, s) ∧
           JSObject.get rid (users w') = Some s ∧ username s = p_to_user p ∧
           emitted (k reply w') = [(ToRoom rid, ev); (ToSocket sid, ev)] ∧
           (in_room w' rid rid = true → (0 < deliveries w' rid ev (k reply w'))%nat)) ∧
      (¬ live →
         emitted (k reply w') = [(ToSocket sid, ev)] ∧
         ∀ c, c ≠ sid → deliveries w' c ev (k reply w') = 0%nat) ∧
      (ToSocket sid, ev) ∈ emitted (k reply w') ∧
      (connected w' sid = true → (0 < deliveries w' sid ev (k reply w'))%nat).
Proof.
  intros Hget ev. unfold privateMessage. rewrite Hget.
  eexists. split; [reflexivity|].
  intros reply w' Hw'. cbv zeta.
  destruct (reachable_invariant w' Hw') as [Hwf _].
  split; [|split; [|split]].
  - intros Hlive. destruct (live_session_found w' _ Hwf Hlive) as (rid & s & Hf & Hg & Hn).
    exists rid, s. rewrite emitted_log, Hf.
    split; [done|]. split; [done|]. split; [done|]. split; [done|].
    intros Hin. rewrite deliveries_app, deliveries_log. simpl.
    rewrite deliveries_cons, reaches_emit. simpl. rewrite Hin. lia.
  - intros Hnone. rewrite emitted_log, (no_live_session_not_found w' _ Hnone Hwf).
    split; [done|]. intros c Hne.
    rewrite deliveries_app, deliveries_log.
    simpl. rewrite deliveries_cons, reaches_emit. simpl.
    by rewrite bool_decide_false.
  - rewrite emitted_log.
    destruct (JSObject.find_entry _ (users w')); simpl; set_solver.
  - intros Hconn. rewrite !deliveries_app, !deliveries_cons, reaches_emit. simpl.
    rewrite bool_decide_true, Hconn by done. simpl. lia.
Qed.

(** alice writes to bob and the save fails: she gets her echo. *)
Lemma C4_direct_message_delivery_witness :
  ∃ k,
    privateMessage sports_world "s1" (PrivatePayload "bob" "hi") 7 =
      (sports_world, [], Await (SavePrivate (PrivateData "alice" "bob" "hi" 7)) k) ∧
    (ToSocket "s1", EvPrivateMessage (PrivateData "alice" "bob" "hi" 7))
      ∈ emitted (k Rejected sports_world) ∧
    (0 < deliveries sports_world "s1"
           (EvPrivateMessage (PrivateData "alice" "bob" "hi" 7))
           (k Rejected sports_world))%nat.
Proof.
  destruct (C4_direct_message_delivery sports_world "s1" (Session "alice" "sports")
              (PrivatePayload "bob" "hi") 7) as (k & Hk & Hres); [reflexivity|].
  exists k. split; [exact Hk|].
  destruct (Hres Rejected sports_world sports_world_reachable) as (_ & _ & Hecho & Hgot).
  split; [exact Hecho|]. apply Hgot. vm_compute. reflexivity.
Defined.

(** C10 (fails on the code as stated): alice (socket s1) joined the room
    named "s1" and left it again when she moved to "sports"; her direct
    message to herself reaches her socket once, as the echo only. *)
Lemma C10_counterexample_sender_left_own_room :
  let ev := EvPrivateMessage (PrivateData "alice" "alice" "hi" 10) in
  reachable self_room_world ∧
  JSObject.get "s1" (users self_room_world) = Some (Session "alice" "sports") ∧
  JSObject.find_entry (λ u, bool_decide (username u = "alice")) (users self_room_world)
    = Some ("s1", Session "alice" "sports") ∧
  deliveries self_room_world "s1" ev
    (resume (privateMessage self_room_world "s1" (PrivatePayload "alice" "hi") 10)
       (Resolved []) self_room_world) = 1%nat.
Proof.
  split; [apply run_reachable; vm_compute; reflexivity|].
  repeat split; vm_compute; reflexivity.
Qed.

(** C10 (as amended): when a socket with a session sends a direct message
    to its own identity, and at the time the archive call has settled its
    session is the first of the registry with that identity and the
    socket is in the room named by its own id, the socket gets the
    message twice: once through that room and once as the echo. *)
Theorem C10_self_message_twice w sid u p now :
  JSObject.get sid (users w) = Some u →
  p_to_user p = username u →
  let ev := EvPrivateMessage (PrivateData (username u) (p_to_user p) (p_message p) now) in
  ∃ k,
    privateMessage w sid p now =
      (w, [],
       Await (SavePrivate (PrivateData (username u) (p_to_user p) (p_message p) now)) k) ∧
    ∀ reply w' s,
      JSObject.find_entry (λ u', bool_decide (username u' = p_to_user p)) (users w')
        = Some (sid, s) →
      in_room w' sid sid = true →
      emitted (k reply w') = [(ToRoom sid, ev); (ToSocket sid, ev)] ∧
      deliveries w' sid ev (k reply w') = 2%nat.
Proof.
  intros Hget Hself ev. unfold privateMessage. rewrite Hget.
  eexists. split; [reflexivity|].
  intros reply w' s Hfind Hin. cbv beta.
  rewrite emitted_log, Hfind. split; [done|].
  rewrite deliveries_app, deliveries_log. simpl.
  rewrite !deliveries_cons, !reaches_emit. simpl.
  by rewrite Hin, bool_decide_true, (in_room_connected w' sid sid Hin).
Qed.

(** alice, in "sports" and in the room of her socket id, writes to herself. *)
Lemma C10_self_message_twice_witness :
  ∃ k,
    privateMessage sports_world "s1" (PrivatePayload "alice" "hi") 7 =
      (sports_world, [], Await (SavePrivate (PrivateData "alice" "alice" "hi" 7)) k) ∧
    deliveries sports_world "s1" (EvPrivateMessage (PrivateData "alice" "alice" "hi" 7))
      (k (Resolved []) sports_world) = 2%nat.
Proof.
  destruct (C10_self_message_twice sports_world "s1" (Session "alice" "sports")
              (PrivatePayload "alice" "hi") 7) as (k & Hk & Hres);
    [reflexivity | reflexivity |].
  exists k. split; [exact Hk|].
  apply (Hres (Resolved []) sports_world (Session "alice" "sports"));
    vm_compute; reflexivity.
Defined.




(** C6 (fails on the code as stated): after bob's explicit leave there is
    no session for his socket in the registry; his identity is gone with
    it. *)
Lemma C6_counterexample_leave_deletes_session :
  JSObject.get "s2" (users sports_world) = Some (Session "bob" "sports") ∧
  JSObject.get "s2" (users (leaveRoom sports_world "s2" 7).1.1) = None ∧
  users (leaveRoom sports_world "s2" 7).1.1 = [("s1", Session "alice" "sports")].
Proof. repeat split; vm_compute; reflexivity. Qed.

(** C6 (as amended): an explicit leave of a socket with a session deletes
    that session from the registry, identity included, exactly as a
    disconnect does, and leaves every other session as it was. *)
Theorem C6_leave_deletes_session w sid u now :
  JSObject.get sid (users w) = Some u →
  let w' := (leaveRoom w sid now).1.1 in
  JSObject.get sid (users w') = None ∧
  (∀ c, c ≠ sid → JSObject.get c (users w') = JSObject.get c (users w)) ∧
  users w' = users (disconnect (transport_close sid w) sid now).1.1.
Proof.
  intros Hget. unfold leaveRoom, disconnect. simpl. rewrite Hget. simpl.
  split; [apply get_delete_eq|]. split; [|done].
  intros c Hne. by apply get_delete_ne.
Qed.

(** bob leaves "sports". *)
Lemma C6_leave_deletes_session_witness :
  JSObject.get "s2" (users (leaveRoom sports_world "s2" 7).1.1) = None.
Proof.
  apply (C6_leave_deletes_session sports_world "s2" (Session "bob" "sports") 7).
  reflexivity.
Defined.

(** C7 (fails on the code as stated): alice's group message and her direct
    message to bob emit nothing while the save is pending; the fan-out is
    what the handler does after the archive call has settled. *)
Lemma C7_counterexample_nothing_emitted_before_save_settles :
  let cfg := Config sports_world (Archive [] []) [] in
  let group := sys_inbound cfg "s1" (InChatMessage "hi" 7) in
  let direct := sys_inbound cfg "s1" (InPrivateMessage (PrivatePayload "bob" "yo") 8) in
  group.2 = [] ∧
  map fst (cfg_pending group.1) = [SaveGroup (MessageData "alice" (Some "sports") "hi" 7)] ∧
  (sys_settle group.1 0 true).2 =
    [Emit (ToRoom "sports") (EvMessage (MessageData "alice" (Some "sports") "hi" 7))] ∧
  direct.2 = [] ∧
  map fst (cfg_pending direct.1) = [SavePrivate (PrivateData "alice" "bob" "yo" 8)] ∧
  (sys_settle direct.1 0 true).2 =
    [Emit (ToRoom "s2") (EvPrivateMessage (PrivateData "alice" "bob" "yo" 8));
     Emit (ToSocket "s1") (EvPrivateMessage (PrivateData "alice" "bob" "yo" 8))].
Proof. repeat split; vm_compute; reflexivity. Qed.

(** C7 (as amended): for a group or direct message from a socket with a
    session, the handler emits nothing before the archive call for that
    message has settled; it awaits the save, and the rest of the handler,
    which runs once the save has succeeded or failed, emits the broadcast
    to the room (group) or the echo to the sender (direct). *)
Theorem C7_fanout_after_archive_settles w sid u :
  JSObject.get sid (users w) = Some u →
  (∀ msg now,
     let data := MessageData (username u) (Some (room u)) msg now in
     ∃ k,
       chatMessage w sid msg now = (w, [], Await (SaveGroup data) k) ∧
       ∀ reply w', (ToRoom (room u), EvMessage data) ∈ emitted (k reply w')) ∧
  (∀ p now,
     let data := PrivateData (username u) (p_to_user p) (p_message p) now in
     ∃ k,
       privateMessage w sid p now = (w, [], Await (SavePrivate data) k) ∧
       ∀ reply w', (ToSocket sid, EvPrivateMessage data) ∈ emitted (k reply w')).
Proof.
  intros Hget. unfold chatMessage, privateMessage. rewrite Hget. split.
  - intros msg now. cbv zeta. eexists. split; [reflexivity|].
    intros reply w'. cbv beta. rewrite emitted_log. set_solver.
  - intros p now. cbv zeta. eexists. split; [reflexivity|].
    intros reply w'. cbv beta. rewrite emitted_log.
    destruct (JSObject.find_entry _ (users w')); simpl; set_solver.
Qed.

(** alice says "hi" in "sports": the broadcast is in the rest of the handler. *)
Lemma C7_fanout_after_archive_settles_witness :
  ∃ k,
    chatMessage sports_world "s1" "hi" 7 =
      (sports_world, [],
       Await (SaveGroup (MessageData "alice" (Some "sports") "hi" 7)) k) ∧
    ∀ reply w',
      (ToRoom "sports", EvMessage (MessageData "alice" (Some "sports") "hi" 7))
        ∈ emitted (k reply w').
Proof.
  destruct (C7_fanout_after_archive_settles sports_world "s1" (Session "alice" "sports"))
    as [Hgroup _]; [reflexivity|].
  exact (Hgroup "hi" 7).
Defined.

(** C8: when the save of a group or direct message from a socket with a
    session fails, the handler writes one line to the server's console and
    then emits exactly what it emits when the save succeeds, so every
    connection gets the same deliveries.  The group message is emitted to
    the room of the sender's session, and every connection whose session
    is in that room gets it exactly once.  The direct message is emitted
    to the room named by the socket id of the first session with the
    recipient's identity, if there is one, and then to the sender's
    socket, which gets it if connected.  The events emitted are the
    message itself and nothing else. *)
Theorem C8_archive_failure_same_delivery w sid u :
  JSObject.get sid (users w) = Some u →
  (∀ msg now,
     let data := MessageData (username u) (Some (room u)) msg now in
     ∃ k,
       chatMessage w sid msg now = (w, [], Await (SaveGroup data) k) ∧
       ∀ docs w',
         k Rejected w' = ConsoleError "Error saving message:" :: k (Resolved docs) w' ∧
         emitted (k Rejected w') = emitted (k (Resolved docs) w') ∧
         emitted (k Rejected w') = [(ToRoom (room u), EvMessage data)] ∧
         (∀ c e, deliveries w' c e (k Rejected w') =
                 deliveries w' c e (k (Resolved docs) w')) ∧
         (reachable w' →
          ∀ c s, JSObject.get c (users w') = Some s → room s = room u →
            deliveries w' c (EvMessage data) (k Rejected w') = 1%nat)) ∧
  (∀ p now,
     let data := PrivateData (username u) (p_to_user p) (p_message p) now in
     ∃ k,
       privateMessage w sid p now = (w, [], Await (SavePrivate data) k) ∧
       ∀ docs w',
         k Rejected w' =
           ConsoleError "Error saving private message:" :: k (Resolved docs) w' ∧
         emitted (k Rejected w') = emitted (k (Resolved docs) w') ∧
         emitted (k Rejected w') =
           match JSObject.find_entry (λ u', bool_decide (username u' = p_to_user p))
                   (users w') with
           | Some recipientSocket => [(ToRoom recipientSocket.1, EvPrivateMessage data)]
           | None => []
           end ++ [(ToSocket sid, EvPrivateMessage data)] ∧
         Forall (λ te, te.2 = EvPrivateMessage data) (emitted (k Rejected w')) ∧
         (∀ c e, deliveries w' c e (k Rejected w') =
                 deliveries w' c e (k (Resolved docs) w')) ∧
         (∀ rid s,
            JSObject.find_entry (λ u', bool_decide (username u' = p_to_user p)) (users w')
              = Some (rid, s) →
            in_room w' rid rid = true →
            (0 < deliveries w' rid (EvPrivateMessage data) (k Rejected w'))%nat) ∧
         (connected w' sid = true →
          (0 < deliveries w' sid (EvPrivateMessage data) (k Rejected w'))%nat)).
Proof.
  intros Hget. unfold chatMessage, privateMessage. rewrite Hget. split.
  - intros msg now. cbv zeta. eexists. split; [reflexivity|]. intros docs w'. cbv beta.
    split; [done|]. split; [done|]. split; [done|]. split; [done|].
    intros Hw' c s Hc Hroom. destruct (reachable_invariant w' Hw') as [_ Hcons].
    simpl. rewrite !deliveries_cons, reaches_emit, deliveries_nil. simpl.
    by rewrite <- Hroom, (Hcons c s Hc).
  - intros p now. cbv zeta. eexists. split; [reflexivity|]. intros docs w'. cbv beta.
    split; [done|]. split; [done|]. split.
    { simpl. by destruct (JSObject.find_entry _ (users w')). }
    split.
    { destruct (JSObject.find_entry _ (users w')); simpl; repeat constructor. }
    split; [done|]. split.
    + intros rid s Hfind Hin. rewrite Hfind. simpl.
      rewrite !deliveries_cons, !reaches_emit. simpl. rewrite Hin. lia.
    + intros Hconn. simpl. rewrite deliveries_cons. simpl.
      rewrite deliveries_app, !deliveries_cons, reaches_emit. simpl.
      rewrite bool_decide_true, Hconn by done. simpl. lia.
Qed.

(** alice says "hi" in "sports" and writes "yo" to bob, and both saves
    fail: bob gets each of them. *)
Lemma C8_archive_failure_same_delivery_witness :
  (∃ k,
     chatMessage sports_world "s1" "hi" 7 =
       (sports_world, [],
        Await (SaveGroup (MessageData "alice" (Some "sports") "hi" 7)) k) ∧
     deliveries sports_world "s2" (EvMessage (MessageData "alice" (Some "sports") "hi" 7))
       (k Rejected sports_world) = 1%nat) ∧
  (∃ k,
     privateMessage sports_world "s1" (PrivatePayload "bob" "yo") 8 =
       (sports_world, [], Await (SavePrivate (PrivateData "alice" "bob" "yo" 8)) k) ∧
     emitted (k Rejected sports_world) =
       [(ToRoom "s2", EvPrivateMessage (PrivateData "alice" "bob" "yo" 8));
        (ToSocket "s1", EvPrivateMessage (PrivateData "alice" "bob" "yo" 8))] ∧
     (0 < deliveries sports_world "s2" (EvPrivateMessage (PrivateData "alice" "bob" "yo" 8))
            (k Rejected sports_world))%nat).
Proof.
  destruct (C8_archive_failure_same_delivery sports_world "s1" (Session "alice" "sports"))
    as [Hgroup Hdirect]; [reflexivity|].
  split.
  - destruct (Hgroup "hi" 7) as (k & Hk & Hres). exists k. split; [exact Hk|].
    destruct (Hres [] sports_world) as (_ & _ & _ & _ & Hbound).
    apply (Hbound sports_world_reachable "s2" (Session "bob" "sports")); reflexivity.
  - destruct (Hdirect (PrivatePayload "bob" "yo") 8) as (k & Hk & Hres).
    exists k. split; [exact Hk|].
    destruct (Hres [] sports_world) as (_ & _ & Hemit & _ & _ & Hrecipient & _).
    split; [exact Hemit|].
    apply (Hrecipient "s2" (Session "bob" "sports")); vm_compute; reflexivity.
Defined.

(** C9: a typing or stop-typing event leaves the server as it was: the
    registry and the rooms are unchanged, the handler awaits nothing, so no
    call to the archive is pending because of it, and the archive holds
    what it held; a history query made afterwards gives what it would have
    given without the event. *)
Theorem C9_typing_leaves_no_trace cfg sid (pt : typing_payload) (ps : stop_payload) :
  let after_typing := (sys_inbound cfg sid (InTyping pt)).1 in
  let after_stop := (sys_inbound cfg sid (InStopTyping ps)).1 in
  (typing (cfg_world cfg) sid pt).1.1 = cfg_world cfg ∧
  (typing (cfg_world cfg) sid pt).2 = Done ∧
  (stopTyping (cfg_world cfg) sid ps).1.1 = cfg_world cfg ∧
  (stopTyping (cfg_world cfg) sid ps).2 = Done ∧
  after_typing = cfg ∧
  after_stop = cfg ∧
  (∀ r n, settle (cfg_archive after_typing) (FindGroup r n) true =
          settle (cfg_archive cfg) (FindGroup r n) true) ∧
  (∀ r n, settle (cfg_archive after_stop) (FindGroup r n) true =
          settle (cfg_archive cfg) (FindGroup r n) true).
Proof.
  assert ((typing (cfg_world cfg) sid pt).1.1 = cfg_world cfg ∧
          (typing (cfg_world cfg) sid pt).2 = Done) as [Ht1 Ht2].
  { unfold typing.
    destruct (truthy_opt (ty_to_user pt)); [destruct (JSObject.find_entry _ _)|
      destruct (truthy_opt (ty_room pt))]; done. }
  assert ((stopTyping (cfg_world cfg) sid ps).1.1 = cfg_world cfg ∧
          (stopTyping (cfg_world cfg) sid ps).2 = Done) as [Hs1 Hs2].
  { unfold stopTyping.
    destruct (truthy_opt (st_to_user ps)); [destruct (JSObject.find_entry _ _)|
      destruct (truthy_opt (st_room ps))]; done. }
  assert ((sys_inbound cfg sid (InTyping pt)).1 = cfg) as Ha.
  { unfold sys_inbound. simpl. rewrite Ht1, Ht2. simpl. rewrite app_nil_r.
    by destruct cfg. }
  assert ((sys_inbound cfg sid (InStopTyping ps)).1 = cfg) as Hb.
  { unfold sys_inbound. simpl. rewrite Hs1, Hs2. simpl. rewrite app_nil_r.
    by destruct cfg. }
  cbv zeta. rewrite Ha, Hb. done.
Qed.

(** * Further properties of the socket layer *)

(** The effects of [joinRoom] on the registry and on the rooms. *)
Lemma joinRoom_users w sid p t1 t2 t3 :
  users (joinRoom w sid p t1 t2 t3).1.1 =
    JSObject.set sid (Session (j_username p) (j_room p)) (users w).
Proof.
  unfold joinRoom.
  destruct (JSObject.get sid (users w)) as [u|]; [destruct (truthy (room u))|]; done.
Qed.

Lemma joinRoom_in_new_room w sid p t1 t2 t3 :
  in_room (joinRoom w sid p t1 t2 t3).1.1 sid (j_room p) = true.
Proof.
  unfold joinRoom.
  destruct (JSObject.get sid (users w)) as [u|]; [destruct (truthy (room u))|];
    simpl; apply in_room_join_eq.
Qed.

Lemma joinRoom_in_room_others w sid p t1 t2 t3 c r :
  c ≠ sid → in_room (joinRoom w sid p t1 t2 t3).1.1 c r = in_room w c r.
Proof.
  intros Hne. unfold joinRoom.
  destruct (JSObject.get sid (users w)) as [u|]; [destruct (truthy (room u))|]; simpl.
  - rewrite in_room_join_ne by done.
    change (in_room (socket_leave sid (room u) w) c r = in_room w c r).
    by apply in_room_leave_ne.
  - by rewrite in_room_join_ne.
  - by rewrite in_room_join_ne.
Qed.

Lemma connected_join w c r c' : connected w c' = true → connected (socket_join c r w) c' = true.
Proof.
  unfold connected, socket_join; simpl. rewrite !bool_decide_eq_true.
  intros Hc. destruct (decide (c' = c)) as [->|Hne].
  - rewrite lookup_insert_eq. eauto.
  - by rewrite lookup_insert_ne.
Qed.

Lemma connected_leave w c r c' : connected (socket_leave c r w) c' = connected w c'.
Proof.
  unfold connected, socket_leave; simpl. apply bool_decide_ext.
  destruct (decide (c' = c)) as [->|Hne].
  - rewrite lookup_alter_eq. by rewrite fmap_is_Some.
  - by rewrite lookup_alter_ne.
Qed.

(** X1: in every world the server can reach, a socket that has a session
    is connected and is in the Socket.io room named by the [room] of its
    session; and no socket id has two entries in [users]. *)
Theorem X1_session_socket_is_in_its_room w c s :
  reachable w →
  JSObject.get c (users w) = Some s →
  connected w c = true ∧ in_room w c (room s) = true ∧ NoDup (map fst (users w)).
Proof.
  intros Hw Hget. destruct (reachable_invariant w Hw) as [Hwf Hcons].
  pose proof (Hcons c s Hget) as Hin.
  split; [by apply (in_room_connected w c (room s))|]. by split.
Qed.

(** bob's socket in the two-member room. *)
Lemma X1_session_socket_is_in_its_room_witness :
  connected sports_world "s2" = true ∧ in_room sports_world "s2" "sports" = true ∧
  NoDup (map fst (users sports_world)).
Proof.
  apply (X1_session_socket_is_in_its_room sports_world "s2" (Session "bob" "sports"));
    [apply sports_world_reachable | reflexivity].
Defined.





(** X3: when a socket with a session leaves, the "left" notice and the
    roster go to the room of its session after the socket has been taken
    out of that room: the leaver gets neither, and every other socket
    whose session is in that room gets each of them exactly once. *)
Theorem X3_leave_notifies_the_others w sid u now :
  reachable w →
  JSObject.get sid (users w) = Some u →
  let r := leaveRoom w sid now in
  let left_notice := notice (username u +:+ " has left the chat") now in
  let roster := EvRoomUsers (getRoomUsers w (room u)) in
  in_room r.1.1 sid (room u) = false ∧
  (∀ e, deliveries r.1.1 sid e r.1.2 = 0%nat) ∧
  ∀ c s, c ≠ sid → JSObject.get c (users w) = Some s → room s = room u →
    deliveries r.1.1 c left_notice r.1.2 = 1%nat ∧
    deliveries r.1.1 c roster r.1.2 = 1%nat.
Proof.
  intros Hw Hget. unfold leaveRoom. rewrite Hget. cbv zeta. simpl.
  destruct (reachable_invariant w Hw) as [_ Hcons].
  assert (∀ c r', in_room {| users := JSObject.delete sid (users w);
                             sids := alter (λ rs, rs ∖ {[room u]}) sid (sids w) |} c r'
                  = in_room (socket_leave sid (room u) w) c r') as Hsame by done.
  split; [rewrite Hsame; apply in_room_leave_eq|]. split.
  - intros e. rewrite !deliveries_cons, deliveries_nil. unfold reaches. simpl.
    rewrite !Hsame, in_room_leave_eq. by rewrite !andb_false_r.
  - intros c s Hne Hc Hroom.
    rewrite !deliveries_cons, !deliveries_nil, !reaches_emit. unfold reaches. simpl.
    rewrite !Hsame, !in_room_leave_ne by done.
    by rewrite <- Hroom, (Hcons c s Hc).
Qed.

(** bob leaves "sports": alice gets the notice and the roster once. *)
Lemma X3_leave_notifies_the_others_witness :
  deliveries (leaveRoom sports_world "s2" 7).1.1 "s1"
    (notice "bob has left the chat" 7) (leaveRoom sports_world "s2" 7).1.2 = 1%nat.
Proof.
  destruct (X3_leave_notifies_the_others sports_world "s2" (Session "bob" "sports") 7)
    as (_ & _ & Hothers); [apply sports_world_reachable | reflexivity |].
  apply (Hothers "s1" (Session "alice" "sports")); [discriminate | reflexivity | reflexivity].
Defined.

(** X4: when the socket of a session closes, the session is deleted and
    the closed socket can get nothing any more; every other socket whose
    session is in the room of the closed one gets the "left" notice and
    the roster exactly once. *)
Theorem X4_disconnect_notifies_the_others w sid u now :
  reachable w →
  JSObject.get sid (users w) = Some u →
  let r := disconnect (transport_close sid w) sid now in
  let left_notice := notice (username u +:+ " has left the chat") now in
  let roster := EvRoomUsers (getRoomUsers w (room u)) in
  JSObject.get sid (users r.1.1) = None ∧
  (∀ t, receives r.1.1 sid t = false) ∧
  ∀ c s, c ≠ sid → JSObject.get c (users w) = Some s → room s = room u →
    deliveries r.1.1 c left_notice r.1.2 = 1%nat ∧
    deliveries r.1.1 c roster r.1.2 = 1%nat.
Proof.
  intros Hw Hget. unfold disconnect. simpl. rewrite Hget. cbv zeta. simpl.
  destruct (reachable_invariant w Hw) as [_ Hcons].
  assert (∀ c r', in_room {| users := JSObject.delete sid (users w);
                             sids := delete sid (sids w) |} c r'
                  = in_room (transport_close sid w) c r') as Hsame by done.
  split; [apply get_delete_eq|]. split.
  - intros [s|r'|r' s]; unfold receives, connected, in_room; simpl;
      rewrite lookup_delete_eq; try done.
    rewrite (bool_decide_false (is_Some None)); [apply andb_false_r | apply is_Some_None].
  - intros c s Hne Hc Hroom.
    rewrite !deliveries_cons, !deliveries_nil, !reaches_emit. unfold reaches. simpl.
    rewrite !Hsame, !in_room_close_ne by done.
    by rewrite <- Hroom, (Hcons c s Hc).
Qed.

(** bob's socket closes: alice gets the roster once. *)
Lemma X4_disconnect_notifies_the_others_witness :
  JSObject.get "s2"
    (users (disconnect (transport_close "s2" sports_world) "s2" 7).1.1) = None.
Proof.
  destruct (X4_disconnect_notifies_the_others sports_world "s2" (Session "bob" "sports") 7)
    as (Hgone & _); [apply sports_world_reachable | reflexivity |].
  exact Hgone.
Defined.

Lemma in_room_join_kept w c r r' :
  in_room w c r' = true → in_room (socket_join c r w) c r' = true.
Proof.
  unfold in_room, socket_join; simpl. rewrite lookup_insert_eq.
  destruct (sids w !! c) as [rs|]; [|done]. simpl.
  rewrite !bool_decide_eq_true. set_solver.
Qed.

Lemma set_same {V} (k : string) (v : V) (o : list (string * V)) :
  JSObject.get k o = Some v → JSObject.set k v o = o.
Proof.
  induction o as [|[k' v'] o IH]; simpl; [done|].
  destruct (decide (k' = k)) as [->|Hne].
  - by intros [= ->].
  - intros H. by rewrite IH.
Qed.

Lemma delete_keys {V} (k k' : string) (v : V) (o : list (string * V)) :
  (k', v) ∈ JSObject.delete k o → k' ≠ k.
Proof.
  induction o as [|[k1 v1] o IH]; simpl.
  - intros H. by apply elem_of_nil in H.
  - destruct (decide (k1 = k)) as [->|Hne]; [done|].
    intros [[= -> ->]|Hin]%elem_of_cons; [done | by apply IH].
Qed.

(** X5: a join by a connected socket binds its session: the registry then
    has [{username, room}] for the socket and what it had for every other
    socket, no other socket changes rooms, the roster emitted last is that
    of the new room, computed after the update, and it lists the joiner;
    the joiner is in the new room and gets that roster and the welcome. *)
Theorem X5_join_binds_the_session w sid p t1 t2 t3 :
  connected w sid = true →
  let r := joinRoom w sid p t1 t2 t3 in
  let me := Session (j_username p) (j_room p) in
  JSObject.get sid (users r.1.1) = Some me ∧
  (∀ c, c ≠ sid → JSObject.get c (users r.1.1) = JSObject.get c (users w)) ∧
  (∀ c rm, c ≠ sid → in_room r.1.1 c rm = in_room w c rm) ∧
  last r.1.2 = Some (Emit (ToRoom (j_room p)) (EvRoomUsers (getRoomUsers r.1.1 (j_room p)))) ∧
  me ∈ getRoomUsers r.1.1 (j_room p) ∧
  receives r.1.1 sid (ToRoom (j_room p)) = true ∧
  receives r.1.1 sid (ToSocket sid) = true.
Proof.
  intros Hconn r me.
  assert (JSObject.get sid (users r.1.1) = Some me) as Hme.
  { unfold r. rewrite joinRoom_users. apply get_set_eq. }
  split; [done|]. split.
  { intros c Hne. unfold r. rewrite joinRoom_users. by apply get_set_ne. }
  split; [intros c rm Hne; by apply joinRoom_in_room_others|]. split.
  { unfold r, joinRoom.
    destruct (JSObject.get sid (users w)) as [u|]; [destruct (truthy (room u))|]; done. }
  split; [apply (session_in_roster r.1.1 sid me Hme)|].
  pose proof (joinRoom_in_new_room w sid p t1 t2 t3) as Hin.
  split; [exact Hin|]. unfold receives.
  rewrite bool_decide_true by done. exact (in_room_connected _ _ _ Hin).
Qed.

(** bob's socket, connected and already in "sports", joins "devops". *)
Lemma X5_join_binds_the_session_witness :
  JSObject.get "s2"
    (users (joinRoom sports_world "s2" (JoinPayload "bob" "devops") 7 8 9).1.1)
  = Some (Session "bob" "devops").
Proof.
  destruct (X5_join_binds_the_session sports_world "s2" (JoinPayload "bob" "devops") 7 8 9)
    as (Hme & _); [vm_compute; reflexivity|].
  exact Hme.
Defined.

(** X6: a socket whose session is in a room with a non-empty name and
    that joins a different room is taken out of the old room, and the
    roster of the old room, computed after the switch, lists exactly the
    sessions of the other sockets that are in it. *)
Theorem X6_switch_leaves_the_old_room w sid u p t1 t2 t3 :
  reachable w →
  JSObject.get sid (users w) = Some u →
  truthy (room u) = true →
  j_room p ≠ room u →
  let w2 := (joinRoom w sid p t1 t2 t3).1.1 in
  in_room w2 sid (room u) = false ∧
  ∀ v, v ∈ getRoomUsers w2 (room u) ↔
       ∃ c, c ≠ sid ∧ JSObject.get c (users w) = Some v ∧ room v = room u.
Proof.
  intros Hw Hget Htruthy Hne w2. destruct (reachable_invariant w Hw) as [Hwf _].
  split.
  - unfold w2, joinRoom. rewrite Hget, Htruthy. simpl.
    unfold in_room, socket_join; simpl. rewrite lookup_insert_eq.
    apply bool_decide_eq_false. rewrite lookup_alter_eq.
    destruct (sids w !! sid); simpl; set_solver.
  - intros v. unfold getRoomUsers, JSObject.values.
    rewrite list_elem_of_filter, list_elem_of_fmap. unfold w2.
    rewrite joinRoom_users. split.
    + intros [Hroom ([c v'] & -> & Hin)]. simpl in *.
      apply elem_get in Hin; [|by apply wf_set].
      destruct (decide (c = sid)) as [->|Hc].
      * rewrite get_set_eq in Hin. injection Hin as <-. simpl in Hroom. done.
      * rewrite get_set_ne in Hin by done. by exists c.
    + intros (c & Hc & Hv & Hroom). split; [done|]. exists (c, v). split; [done|].
      apply get_Some_elem. by rewrite get_set_ne.
Qed.

(** bob moves from "sports" to "devops". *)
Lemma X6_switch_leaves_the_old_room_witness :
  in_room (joinRoom sports_world "s2" (JoinPayload "bob" "devops") 7 8 9).1.1
    "s2" "sports" = false.
Proof.
  destruct (X6_switch_leaves_the_old_room sports_world "s2" (Session "bob" "sports")
              (JoinPayload "bob" "devops") 7 8 9) as [Hout _];
    [apply sports_world_reachable | reflexivity | reflexivity | discriminate |].
  exact Hout.
Defined.

(** X7: a previous room whose name is the empty string counts as no room:
    on the next join the socket is not taken out of it and nothing is sent
    to it; only the welcome, the "joined" notice and the new roster are
    emitted, and the socket is still in the room with the empty name. *)
Theorem X7_empty_previous_room_is_not_left w sid u p t1 t2 t3 :
  reachable w →
  JSObject.get sid (users w) = Some u →
  room u = "" →
  let r := joinRoom w sid p t1 t2 t3 in
  in_room r.1.1 sid "" = true ∧
  emitted r.1.2 =
    [(ToSocket sid, notice "Welcome to chat app :)" t2);
     (ToRoomExcept (j_room p) sid, notice (j_username p +:+ " has joined the chat") t3);
     (ToRoom (j_room p), EvRoomUsers (getRoomUsers r.1.1 (j_room p)))].
Proof.
  intros Hw Hget Hblank r. destruct (reachable_invariant w Hw) as [_ Hcons].
  pose proof (Hcons sid u Hget) as Hin. rewrite Hblank in Hin.
  unfold r, joinRoom. rewrite Hget, Hblank. simpl.
  split; [|done]. by apply in_room_join_kept.
Qed.

(** alice, who joined with an empty room name, joins "sports". *)
Lemma X7_empty_previous_room_is_not_left_witness :
  in_room (joinRoom blank_room_world "s1" (JoinPayload "alice" "sports") 4 5 6).1.1
    "s1" "" = true.
Proof.
  destruct (X7_empty_previous_room_is_not_left blank_room_world "s1" (Session "alice" "")
              (JoinPayload "alice" "sports") 4 5 6) as [Hin _];
    [apply run_reachable; vm_compute; reflexivity | reflexivity | reflexivity |].
  exact Hin.
Defined.

(** X8: joining again, with the same name, the room the session is in
    leaves the registry and the rooms exactly as they were (the notices
    and rosters are emitted all the same). *)
Theorem X8_rejoin_changes_nothing w sid p t1 t2 t3 :
  reachable w →
  JSObject.get sid (users w) = Some (Session (j_username p) (j_room p)) →
  (joinRoom w sid p t1 t2 t3).1.1 = w.
Proof.
  intros Hw Hget. destruct (reachable_invariant w Hw) as [_ Hcons].
  pose proof (Hcons _ _ Hget) as Hin. simpl in Hin.
  unfold in_room in Hin. destruct (sids w !! sid) as [rs|] eqn:Hrs; [|done].
  apply bool_decide_eq_true in Hin.
  unfold joinRoom. rewrite Hget. simpl.
  destruct w as [us m]. simpl in *.
  destruct (truthy (j_room p)); simpl; unfold socket_join; simpl;
    rewrite (set_same _ _ _ Hget); f_equal.
  - apply map_eq. intros i. destruct (decide (i = sid)) as [->|Hne].
    + rewrite lookup_insert_eq, lookup_alter_eq, Hrs. simpl. f_equal.
      apply set_eq. intros x. rewrite elem_of_union, elem_of_difference, elem_of_singleton.
      destruct (decide (x = j_room p)) as [->|]; naive_solver.
    + by rewrite lookup_insert_ne, lookup_alter_ne.
  - rewrite Hrs. simpl. apply insert_id. rewrite Hrs. f_equal. set_solver.
Qed.

(** bob, in "sports", joins "sports" again. *)
Lemma X8_rejoin_changes_nothing_witness :
  (joinRoom sports_world "s2" (JoinPayload "bob" "sports") 7 8 9).1.1 = sports_world.
Proof.
  apply (X8_rejoin_changes_nothing sports_world "s2" (JoinPayload "bob" "sports") 7 8 9);
    [apply sports_world_reachable | reflexivity].
Defined.

(** A socket without a session sends nothing and is nobody's recipient. *)
Lemma sessionless_socket_is_silent w sid :
  JSObject.get sid (users w) = None →
  (∀ now, leaveRoom w sid now = (w, [], Done)) ∧
  (∀ msg now, chatMessage w sid msg now = (w, [], Done)) ∧
  (∀ p now, privateMessage w sid p now = (w, [], Done)) ∧
  (∀ (f : session → bool) rid s,
     JSObject.find_entry f (users w) = Some (rid, s) → rid ≠ sid).
Proof.
  intros Hnone. unfold leaveRoom, chatMessage, privateMessage. rewrite Hnone.
  repeat split. intros f rid s Hfind ->.
  apply find_entry_Some in Hfind as [Hin _].
  apply get_None_keys in Hnone. apply Hnone.
  apply list_elem_of_fmap. by exists (sid, s).
Qed.

Lemma leaveRoom_no_session w sid now :
  JSObject.get sid (users (leaveRoom w sid now).1.1) = None.
Proof.
  unfold leaveRoom. destruct (JSObject.get sid (users w)) eqn:Hget; simpl; [|done].
  apply get_delete_eq.
Qed.

Lemma disconnect_no_session w sid now :
  JSObject.get sid (users (disconnect (transport_close sid w) sid now).1.1) = None.
Proof.
  unfold disconnect. simpl. destruct (JSObject.get sid (users w)) eqn:Hget; simpl; [|done].
  apply get_delete_eq.
Qed.

(** X9: once a socket has left, or has been closed, whatever its state
    was before, a further leave, group message or direct message from it
    is dropped without any effect, and the lookup of a recipient (for a
    direct message or a typing signal) never gives that socket. *)
Theorem X9_departed_socket_is_out w sid now :
  let after_leave := (leaveRoom w sid now).1.1 in
  let after_close := (disconnect (transport_close sid w) sid now).1.1 in
  ((∀ now', leaveRoom after_leave sid now' = (after_leave, [], Done)) ∧
   (∀ msg now', chatMessage after_leave sid msg now' = (after_leave, [], Done)) ∧
   (∀ p now', privateMessage after_leave sid p now' = (after_leave, [], Done)) ∧
   (∀ (f : session → bool) rid s,
      JSObject.find_entry f (users after_leave) = Some (rid, s) → rid ≠ sid)) ∧
  ((∀ now', leaveRoom after_close sid now' = (after_close, [], Done)) ∧
   (∀ msg now', chatMessage after_close sid msg now' = (after_close, [], Done)) ∧
   (∀ p now', privateMessage after_close sid p now' = (after_close, [], Done)) ∧
   (∀ (f : session → bool) rid s,
      JSObject.find_entry f (users after_close) = Some (rid, s) → rid ≠ sid)).
Proof.
  split.
  - apply sessionless_socket_is_silent, leaveRoom_no_session.
  - apply sessionless_socket_is_silent, disconnect_no_session.
Qed.

(** X10: in a typing or stop-typing event a non-empty [to_user] overrides
    [room]: the signal goes to the recipient found in the registry, the
    room is not looked at, and when no session has that identity nothing
    is emitted at all, whatever [room] says. *)
Theorem X10_typing_recipient_overrides_room w sid (p : typing_payload) (q : stop_payload) to :
  reachable w →
  truthy_opt (ty_to_user p) = Some to →
  truthy_opt (st_to_user q) = Some to →
  typing w sid p = typing w sid (TypingPayload (ty_username p) None (ty_to_user p)) ∧
  stopTyping w sid q = stopTyping w sid (StopPayload None (st_to_user q)) ∧
  (¬ (∃ c s, JSObject.get c (users w) = Some s ∧ username s = to) →
   typing w sid p = (w, [], Done) ∧ stopTyping w sid q = (w, [], Done)).
Proof.
  intros Hw Hp Hq. destruct (reachable_invariant w Hw) as [Hwf _].
  unfold typing, stopTyping. simpl. rewrite Hp, Hq.
  split; [done|]. split; [done|].
  intros Hnone. by rewrite (no_live_session_not_found w to Hnone Hwf).
Qed.

(** A typing event for carol, who has no session, with a room given. *)
Lemma X10_typing_recipient_overrides_room_witness :
  typing sports_world "s1" (TypingPayload "alice" (Some "sports") (Some "carol")) =
    (sports_world, [], Done).
Proof.
  destruct (X10_typing_recipient_overrides_room sports_world "s1"
              (TypingPayload "alice" (Some "sports") (Some "carol"))
              (StopPayload (Some "sports") (Some "carol")) "carol")
    as (_ & _ & Hnone); [apply sports_world_reachable | reflexivity | reflexivity |].
  apply Hnone. intros (c & s & Hget & Hname).
  assert (users sports_world =
            [("s1", Session "alice" "sports"); ("s2", Session "bob" "sports")]) as Hu
    by (vm_compute; reflexivity).
  rewrite Hu in Hget. simpl in Hget.
  destruct (decide ("s1" = c)); [injection Hget as <-; discriminate Hname|].
  destruct (decide ("s2" = c)); [injection Hget as <-; discriminate Hname|].
  discriminate Hget.
Defined.

Lemma find_entry_first {V} (f : V → bool) (before after : list (string * V)) k v :
  (∀ k' v', (k', v') ∈ before → f v' = false) →
  f v = true →
  JSObject.find_entry f (before ++ (k, v) :: after) = Some (k, v).
Proof.
  intros Hbefore Hv. induction before as [|[k1 v1] before IH]; simpl.
  - by rewrite Hv.
  - rewrite (Hbefore k1 v1) by left. apply IH.
    intros k' v' Hin. apply (Hbefore k'). by right.
Qed.

(** X11: when several sessions have the identity a direct message is
    sent to, the message is emitted to the room named by the socket id of
    the one that comes first in the registry, and to the sender; a socket
    other than the sender that is not in that room, such as the socket of
    a later session with the same identity, gets nothing. *)
Theorem X11_direct_message_to_first_session_only w sid u p now reply w'
    (before after : list (string * session)) rid s :
  JSObject.get sid (users w) = Some u →
  users w' = before ++ (rid, s) :: after →
  username s = p_to_user p →
  (∀ c v, (c, v) ∈ before → username v ≠ p_to_user p) →
  let ev := EvPrivateMessage (PrivateData (username u) (p_to_user p) (p_message p) now) in
  let outs := resume (privateMessage w sid p now) reply w' in
  emitted outs = [(ToRoom rid, ev); (ToSocket sid, ev)] ∧
  ∀ c, c ≠ sid → in_room w' c rid = false → ∀ e, deliveries w' c e outs = 0%nat.
Proof.
  intros Hget Hus Hname Hbefore ev outs.
  assert (JSObject.find_entry (λ u', bool_decide (username u' = p_to_user p)) (users w')
          = Some (rid, s)) as Hfind.
  { rewrite Hus. apply find_entry_first.
    - intros k' v' Hin. apply bool_decide_eq_false. by apply (Hbefore k').
    - by apply bool_decide_eq_true. }
  unfold outs, resume, privateMessage. rewrite Hget. simpl.
  rewrite emitted_log, Hfind. split; [done|].
  intros c Hne Hout e. rewrite deliveries_app, deliveries_log. simpl.
  rewrite !deliveries_cons, deliveries_nil. unfold reaches, receives. simpl.
  rewrite Hout, (bool_decide_false (c = sid)) by done.
  by rewrite !andb_false_r.
Qed.

(** alice writes to bob, who has two sessions (s2, then s3): the message
    is emitted to the room of s2, and s3 gets nothing. *)
Lemma X11_direct_message_to_first_session_only_witness :
  let ev := EvPrivateMessage (PrivateData "alice" "bob" "hi" 10) in
  let outs :=
    resume (privateMessage twin_world "s1" (PrivatePayload "bob" "hi") 10)
      (Resolved []) twin_world in
  emitted outs = [(ToRoom "s2", ev); (ToSocket "s1", ev)] ∧
  deliveries twin_world "s3" ev outs = 0%nat.
Proof.
  destruct (X11_direct_message_to_first_session_only twin_world "s1"
              (Session "alice" "sports") (PrivatePayload "bob" "hi") 10 (Resolved [])
              twin_world [("s1", Session "alice" "sports")] [("s3", Session "bob" "devops")]
              "s2" (Session "bob" "sports")) as [Hemit Hnone];
    [reflexivity | vm_compute; reflexivity | reflexivity | |].
  - intros c v Hin. apply list_elem_of_singleton in Hin. injection Hin as -> ->.
    discriminate.
  - split; [exact Hemit|]. apply Hnone; [discriminate | vm_compute; reflexivity].
Defined.

(** * The history sent on a join *)

#[global] Instance not_after_total : Total not_after.
Proof. intros x y. unfold not_after. lia. Qed.

#[global] Instance not_after_trans : Transitive not_after.
Proof. intros x y z. unfold not_after. lia. Qed.

Lemma filter_none {A} (P : A → Prop) `{!∀ x, Decision (P x)} (l : list A) :
  (∀ x, x ∈ l → ¬ P x) → filter P l = [].
Proof.
  induction l as [|x l IH]; intros Hl; [done|].
  rewrite filter_cons_False by (apply Hl; left). apply IH.
  intros y Hy. apply Hl. by right.
Qed.

(** A record with [n] strictly older records before it is not among the
    first [n] of the sorted list. *)
Lemma sorted_take_keeps_oldest (l : list message_data) (n : nat) d :
  (n ≤ length (filter (λ m, (date_sent m < date_sent d)%Z) l))%nat →
  d ∉ take n (merge_sort not_after l).
Proof.
  intros Hmany Hin. apply elem_of_take in Hin as (i & Hi & Hlt).
  pose proof (StronglySorted_merge_sort not_after l) as Hsorted.
  rewrite <- (take_drop_middle _ _ _ Hi) in Hsorted.
  assert (length (filter (λ m, date_sent m < date_sent d) (merge_sort not_after l))
          = length (filter (λ m, date_sent m < date_sent d) l)) as Hlen.
  { apply Permutation_length. by rewrite merge_sort_Permutation. }
  rewrite <- (take_drop_middle _ _ _ Hi), filter_app in Hlen.
  rewrite (filter_none _ (d :: _)) in Hlen.
  - rewrite app_nil_r in Hlen.
    pose proof (length_filter (λ m, date_sent m < date_sent d)
                  (take i (merge_sort not_after l))) as Hle.
    rewrite length_take in Hle. lia.
  - intros y Hy. apply elem_of_cons in Hy as [->|Hy]; [lia|].
    apply StronglySorted_app_1_r, StronglySorted_cons in Hsorted as [Hall _].
    rewrite Forall_forall in Hall. specialize (Hall y Hy). unfold not_after in Hall. lia.
Qed.

Lemma joinRoom_task w sid p t1 t2 t3 :
  (joinRoom w sid p t1 t2 t3).2 =
    Await (FindGroup (j_room p) 50) (λ reply _,
      match reply with
      | Resolved previousMessages =>
          [Emit (ToSocket sid) (EvPreviousMessages previousMessages)]
      | Rejected => [ConsoleError "Error loading previous messages:"]
      end).
Proof.
  unfold joinRoom.
  destruct (JSObject.get sid (users w)) as [u|]; [destruct (truthy (room u))|]; done.
Qed.

(** The server after a group message from [sid] has been saved and socket
    [sid'] has then joined room [r]; the query of that join is pending. *)
Lemma saved_then_joined w a sid u msg now sid' p t1 t2 t3 :
  JSObject.get sid (users w) = Some u →
  let d := MessageData (username u) (Some (room u)) msg now in
  let cfg1 := (sys_inbound (Config w a []) sid (InChatMessage msg now)).1 in
  let cfg2 := (sys_settle cfg1 0 true).1 in
  let cfg3 := (sys_inbound cfg2 sid' (InJoinRoom p t1 t2 t3)).1 in
  cfg_archive cfg2 = Archive (group_messages a ++ [d]) (private_messages a) ∧
  (sys_settle cfg3 0 true).2 =
    [Emit (ToSocket sid')
       (EvPreviousMessages
          (recentFor (Archive (group_messages a ++ [d]) (private_messages a)) (j_room p) 50))].
Proof.
  intros Hget. cbv zeta. unfold sys_inbound at 2. simpl. unfold chatMessage.
  rewrite Hget. simpl. split; [done|].
  unfold sys_inbound, sys_settle. simpl. rewrite joinRoom_task. done.
Qed.

(** X12: a group message whose save has succeeded is in the history sent
    to the next socket that joins the room of that message, when the
    archive held fewer than 50 messages of the room before (the archive
    being an append-only collection queried by room, sorted on
    [date_sent], capped at 50). *)
Theorem X12_saved_message_is_in_next_history w a sid u msg now sid' name t1 t2 t3 :
  JSObject.get sid (users w) = Some u →
  (length (filter (λ m, msg_room m = Some (room u)) (group_messages a)) < 50)%nat →
  let d := MessageData (username u) (Some (room u)) msg now in
  let cfg1 := (sys_inbound (Config w a []) sid (InChatMessage msg now)).1 in
  let cfg2 := (sys_settle cfg1 0 true).1 in
  let cfg3 := (sys_inbound cfg2 sid' (InJoinRoom (JoinPayload name (room u)) t1 t2 t3)).1 in
  ∃ docs,
    (sys_settle cfg3 0 true).2 = [Emit (ToSocket sid') (EvPreviousMessages docs)] ∧
    d ∈ docs.
Proof.
  intros Hget Hfew.
  destruct (saved_then_joined w a sid u msg now sid' (JoinPayload name (room u)) t1 t2 t3 Hget)
    as [_ Hout].
  cbv zeta in *. eexists. split; [exact Hout|].
  unfold recentFor. simpl. rewrite filter_app, filter_cons_True, filter_nil by done.
  rewrite take_ge.
  - rewrite merge_sort_Permutation. set_solver.
  - rewrite (Permutation_length (merge_sort_Permutation _ _)), length_app. simpl. lia.
Qed.

(** alice's "hi" is saved in an empty archive; a third socket joins
    "sports". *)
Lemma X12_saved_message_is_in_next_history_witness :
  ∃ docs,
    (sys_settle
       (sys_inbound
          (sys_settle
             (sys_inbound (Config lurker_world (Archive [] []) []) "s1"
                (InChatMessage "hi" 10)).1 0 true).1
          "s3" (InJoinRoom (JoinPayload "carol" "sports") 11 12 13)).1 0 true).2
      = [Emit (ToSocket "s3") (EvPreviousMessages docs)] ∧
    MessageData "alice" (Some "sports") "hi" 10 ∈ docs.
Proof.
  apply (X12_saved_message_is_in_next_history lurker_world (Archive [] []) "s1"
           (Session "alice" "sports") "hi" 10 "s3" "carol" 11 12 13);
    [reflexivity | simpl; lia].
Defined.

(** X13: the history of a join is the 50 oldest messages of the room, not
    the 50 latest: a message that was saved when the archive already held
    50 older messages of its room is not in the history sent to a socket
    that joins afterwards, and that history has 50 messages. *)
Theorem X13_history_is_the_oldest_fifty w a sid u msg now sid' name t1 t2 t3 :
  JSObject.get sid (users w) = Some u →
  (50 ≤ length (filter (λ m, (date_sent m < now)%Z)
                  (filter (λ m, msg_room m = Some (room u)) (group_messages a))))%nat →
  let d := MessageData (username u) (Some (room u)) msg now in
  let cfg1 := (sys_inbound (Config w a []) sid (InChatMessage msg now)).1 in
  let cfg2 := (sys_settle cfg1 0 true).1 in
  let cfg3 := (sys_inbound cfg2 sid' (InJoinRoom (JoinPayload name (room u)) t1 t2 t3)).1 in
  ∃ docs,
    (sys_settle cfg3 0 true).2 = [Emit (ToSocket sid') (EvPreviousMessages docs)] ∧
    (d ∉ docs) ∧ length docs = 50%nat.
Proof.
  intros Hget Hmany.
  destruct (saved_then_joined w a sid u msg now sid' (JoinPayload name (room u)) t1 t2 t3 Hget)
    as [_ Hout].
  cbv zeta in *. eexists. split; [exact Hout|].
  unfold recentFor. simpl. rewrite filter_app, filter_cons_True, filter_nil by done.
  split.
  - apply sorted_take_keeps_oldest. simpl. rewrite filter_app, length_app. lia.
  - rewrite length_take, (Permutation_length (merge_sort_Permutation _ _)), length_app.
    pose proof (length_filter (λ m, date_sent m < now)
                  (filter (λ m, msg_room m = Some (room u)) (group_messages a))).
    cbn [length]. lia.
Qed.

(** alice's "hi" is saved when "sports" already has 50 older messages; a
    third socket joins "sports". *)
Lemma X13_history_is_the_oldest_fifty_witness :
  ∃ docs,
    (sys_settle
       (sys_inbound
          (sys_settle
             (sys_inbound
                (Config lurker_world
                   (Archive (replicate 50 (MessageData "bob" (Some "sports") "old" 1)) []) [])
                "s1" (InChatMessage "hi" 10)).1 0 true).1
          "s3" (InJoinRoom (JoinPayload "carol" "sports") 11 12 13)).1 0 true).2
      = [Emit (ToSocket "s3") (EvPreviousMessages docs)] ∧
    (MessageData "alice" (Some "sports") "hi" 10 ∉ docs) ∧ length docs = 50%nat.
Proof.
  apply (X13_history_is_the_oldest_fifty lurker_world
           (Archive (replicate 50 (MessageData "bob" (Some "sports") "old" 1)) []) "s1"
           (Session "alice" "sports") "hi" 10 "s3" "carol" 11 12 13);
    [reflexivity | vm_compute; lia].
Defined.

(** * The REST routes *)

#[global] Instance pm_not_after_total : Total Rest.pm_not_after.
Proof. intros x y. unfold Rest.pm_not_after. lia. Qed.

#[global] Instance pm_not_after_trans : Transitive Rest.pm_not_after.
Proof. intros x y z. unfold Rest.pm_not_after. lia. Qed.

(** Case analysis on what the models answered: every conjunct is decided
    by the answers at hand. *)
Ltac rest_crush :=
  unfold Rest.signup_catch, Rest.server_error, Rest.invalid_login, JSObject.values in *;
  repeat case_decide; simpl in *;
  repeat split; intros;
  repeat match goal with
         | H : ∃ _, _ |- _ => destruct H
         | H : _ ∧ _ |- _ => destruct H
         | H : _ ∨ _ |- _ => destruct H
         end;
  simplify_eq/=;
  repeat match goal with
         | H1 : ?x = _, H2 : ?x = _ |- _ => rewrite H1 in H2; simplify_eq/=
         end;
  try done; try congruence; eauto 10.

(** X14: [/api/signup] answers 201 exactly when there is a body, no user
    with that name was found, the document was built and its save
    succeeded, and the answer then carries the username of the document;
    in every other case it answers 400 or 500.  When a user with that
    name is found the answer is 400 "Username already exists" and nothing
    is built or saved; when the save fails with a ValidationError the
    answer is 400 with the messages of the error, joined by ", "; without
    a body the answer is 500 and no model is called. *)
Theorem X14_signup_created_iff (o : Rest.models) (req_body : option Rest.signup_body) :
  let route := Rest.signup req_body in
  let r := Rest.run o route in
  let built b user :=
    o _ (Rest.UserFindOne (Rest.b_username b)) = Rest.Returns None ∧
    o _ (Rest.UserNew (Rest.b_username b) (Rest.b_firstname b) (Rest.b_lastname b)
           (Rest.b_password b)) = Rest.Returns user in
  (Rest.status r = 201%nat ↔
     ∃ b user, req_body = Some b ∧ built b user ∧
               o _ (Rest.UserSave user) = Rest.Returns ()) ∧
  (∀ b user,
     req_body = Some b → built b user → o _ (Rest.UserSave user) = Rest.Returns () →
     r = Rest.Response 201
           (Rest.SignupBody "User created successfully" (Rest.u_username user))) ∧
  (Rest.status r = 201%nat ∨ Rest.status r = 400%nat ∨ Rest.status r = 500%nat) ∧
  (∀ b existing,
     req_body = Some b →
     o _ (Rest.UserFindOne (Rest.b_username b)) = Rest.Returns (Some existing) →
     r = Rest.Response 400 (Rest.ErrorBody "Username already exists") ∧
     Rest.calls o route = [Rest.AnyCall (Rest.UserFindOne (Rest.b_username b))]) ∧
  (∀ b user errors,
     req_body = Some b → built b user →
     o _ (Rest.UserSave user) = Rest.Throws (Rest.JsError "ValidationError" errors) →
     r = Rest.Response 400 (Rest.ErrorBody (String.concat ", " (map snd errors)))) ∧
  (req_body = None →
     r = Rest.Response 500 (Rest.ErrorBody "Server error") ∧ Rest.calls o route = []).
Proof.
  cbv zeta. destruct req_body as [b|]; simpl;
    [destruct (o _ (Rest.UserFindOne (Rest.b_username b))) as [[existing|]|err] eqn:Hfind;
       simpl;
       [| destruct (o _ (Rest.UserNew (Rest.b_username b) (Rest.b_firstname b)
                           (Rest.b_lastname b) (Rest.b_password b)))
            as [user|err] eqn:Hnew; simpl;
          [destruct (o _ (Rest.UserSave user)) as [[]|err] eqn:Hsave; simpl|] |] |];
    rest_crush.
Qed.

(** dave signs up: no such user, the save succeeds, the answer is 201 and
    carries his username. *)
Lemma X14_signup_created_iff_witness :
  Rest.run Rest.demo_models
    (Rest.signup (Some (Rest.SignupFields (Some "dave") (Some "Dave") (Some "Lee")
                          (Some "pw")))) =
  Rest.Response 201 (Rest.SignupBody "User created successfully" "dave").
Proof.
  destruct (X14_signup_created_iff Rest.demo_models
              (Some (Rest.SignupFields (Some "dave") (Some "Dave") (Some "Lee") (Some "pw"))))
    as (_ & Hcreated & _).
  exact (Hcreated (Rest.SignupFields (Some "dave") (Some "Dave") (Some "Lee") (Some "pw"))
           (Rest.UserDoc "dave" "Dave" "Lee") eq_refl (conj eq_refl eq_refl) eq_refl).
Defined.

(** X15: [/api/login] answers 200 exactly when there is a body, a user was
    found and the password comparison gave true, and the answer then
    carries the names of the user found; it answers 401 exactly when there
    is a body and no user was found or the comparison gave false, with one
    and the same answer in both cases; every other case is 500 "Server
    error" and nothing of the error; when no user was found no password
    is compared. *)
Theorem X15_login_outcomes (o : Rest.models) (req_body : option Rest.login_body) :
  let route := Rest.login req_body in
  let r := Rest.run o route in
  let accepted b user :=
    o _ (Rest.UserFindOne (Rest.l_username b)) = Rest.Returns (Some user) ∧
    o _ (Rest.UserComparePassword user (Rest.l_password b)) = Rest.Returns true in
  let refused b :=
    o _ (Rest.UserFindOne (Rest.l_username b)) = Rest.Returns None ∨
    ∃ user,
      o _ (Rest.UserFindOne (Rest.l_username b)) = Rest.Returns (Some user) ∧
      o _ (Rest.UserComparePassword user (Rest.l_password b)) = Rest.Returns false in
  (Rest.status r = 200%nat ↔ ∃ b user, req_body = Some b ∧ accepted b user) ∧
  (∀ b user,
     req_body = Some b → accepted b user →
     r = Rest.Response 200
           (Rest.LoginBody "Login successful" (Rest.u_username user)
              (Rest.u_firstname user) (Rest.u_lastname user))) ∧
  (Rest.status r = 401%nat ↔ ∃ b, req_body = Some b ∧ refused b) ∧
  (∀ b, req_body = Some b → refused b →
     r = Rest.Response 401 (Rest.ErrorBody "Invalid username or password")) ∧
  (Rest.status r = 200%nat ∨ Rest.status r = 401%nat ∨
   r = Rest.Response 500 (Rest.ErrorBody "Server error")) ∧
  (∀ b, req_body = Some b →
     o _ (Rest.UserFindOne (Rest.l_username b)) = Rest.Returns None →
     Rest.calls o route = [Rest.AnyCall (Rest.UserFindOne (Rest.l_username b))]).
Proof.
  cbv zeta. destruct req_body as [b|]; simpl;
    [destruct (o _ (Rest.UserFindOne (Rest.l_username b))) as [[user|]|err] eqn:Hfind;
       simpl;
       [destruct (o _ (Rest.UserComparePassword user (Rest.l_password b)))
          as [[]|err] eqn:Hcmp; simpl| |] |];
    rest_crush.
Qed.

(** carol logs in with her password and is answered 200 with her names;
    with a wrong password she gets the answer an unknown user gets. *)
Lemma X15_login_outcomes_witness :
  Rest.run Rest.demo_models
    (Rest.login (Some (Rest.LoginFields (Some "carol") (Some "secret")))) =
    Rest.Response 200 (Rest.LoginBody "Login successful" "carol" "Carol" "Jones") ∧
  Rest.run Rest.demo_models
    (Rest.login (Some (Rest.LoginFields (Some "carol") (Some "guess")))) =
    Rest.run Rest.demo_models
      (Rest.login (Some (Rest.LoginFields (Some "dave") (Some "guess")))).
Proof.
  split.
  - destruct (X15_login_outcomes Rest.demo_models
                (Some (Rest.LoginFields (Some "carol") (Some "secret"))))
      as (_ & Haccepted & _).
    exact (Haccepted (Rest.LoginFields (Some "carol") (Some "secret")) Rest.carol
             eq_refl (conj eq_refl eq_refl)).
  - destruct (X15_login_outcomes Rest.demo_models
                (Some (Rest.LoginFields (Some "carol") (Some "guess"))))
      as (_ & _ & _ & Hwrong & _).
    destruct (X15_login_outcomes Rest.demo_models
                (Some (Rest.LoginFields (Some "dave") (Some "guess"))))
      as (_ & _ & _ & Hunknown & _).
    rewrite (Hwrong (Rest.LoginFields (Some "carol") (Some "guess")) eq_refl),
      (Hunknown (Rest.LoginFields (Some "dave") (Some "guess")) eq_refl);
      [reflexivity | left; reflexivity |].
    right. exists Rest.carol. split; reflexivity.
Defined.

Lemma take_strongly_sorted {A} (R : relation A) (l : list A) n :
  StronglySorted R l → StronglySorted R (take n l).
Proof.
  intros Hl. rewrite <- (take_drop n l) in Hl. by apply StronglySorted_app_1_l in Hl.
Qed.

(** X16: with the two message queries answered from the archive,
    [/api/messages/:room] answers 200 with at most 100 messages, all of
    that room, oldest first; and a socket that joins that room is sent,
    once the query of its join has settled, the first 50 of them as
    [previousMessages], and nothing else. *)
Theorem X16_join_history_is_prefix_of_messages_route (o : Rest.models) a w sid p t1 t2 t3 :
  Rest.answers_from a o →
  ∃ docs,
    Rest.run o (Rest.messages (j_room p)) =
      Rest.Response 200 (Rest.GroupMessagesBody docs) ∧
    (length docs ≤ 100)%nat ∧
    Forall (λ m, msg_room m = Some (j_room p)) docs ∧
    StronglySorted not_after docs ∧
    (sys_settle (sys_inbound (Config w a []) sid (InJoinRoom p t1 t2 t3)).1 0 true).2 =
      [Emit (ToSocket sid) (EvPreviousMessages (take 50 docs))].
Proof.
  intros [Hgroup _]. exists (recentFor a (j_room p) 100).
  unfold Rest.messages. simpl. rewrite Hgroup.
  split; [done|]. split; [unfold recentFor; rewrite length_take; lia|]. split.
  { apply Forall_forall. intros m Hm. unfold recentFor in Hm. apply subseteq_take in Hm.
    rewrite merge_sort_Permutation in Hm. by apply list_elem_of_filter in Hm as [? _]. }
  split; [apply take_strongly_sorted, StronglySorted_merge_sort; apply _|].
  unfold sys_inbound, sys_settle. simpl. rewrite joinRoom_task. simpl.
  unfold recentFor. by rewrite take_take.
Qed.

Lemma models_over_answer a : Rest.answers_from a (Rest.models_over a).
Proof. split; intros; reflexivity. Defined.

(** Over the sample archive the route for "sports" gives its three
    messages by date, not the one of "devops", and a socket that joins
    "sports" is sent the same three. *)
Lemma X16_join_history_is_prefix_of_messages_route_witness :
  let sports :=
    [MessageData "bob" (Some "sports") "first" 10;
     MessageData "alice" (Some "sports") "second" 20;
     MessageData "alice" (Some "sports") "third" 30] in
  Rest.run (Rest.models_over Rest.sample_archive) (Rest.messages "sports") =
    Rest.Response 200 (Rest.GroupMessagesBody sports) ∧
  (sys_settle
     (sys_inbound (Config lurker_world Rest.sample_archive []) "s3"
        (InJoinRoom (JoinPayload "carol" "sports") 11 12 13)).1 0 true).2 =
    [Emit (ToSocket "s3") (EvPreviousMessages sports)].
Proof.
  destruct (X16_join_history_is_prefix_of_messages_route
              (Rest.models_over Rest.sample_archive) Rest.sample_archive lurker_world "s3"
              (JoinPayload "carol" "sports") 11 12 13 (models_over_answer _))
    as (docs & Hrun & _ & _ & _ & Hjoin).
  assert (docs =
            [MessageData "bob" (Some "sports") "first" 10;
             MessageData "alice" (Some "sports") "second" 20;
             MessageData "alice" (Some "sports") "third" 30]) as ->.
  { vm_compute in Hrun. by injection Hrun as <-. }
  split; [exact Hrun | exact Hjoin].
Defined.

Lemma conversation_symmetric a user1 user2 n :
  Rest.conversation a user1 user2 n = Rest.conversation a user2 user1 n.
Proof.
  unfold Rest.conversation. f_equal. f_equal. apply list_filter_iff.
  intros d. unfold Rest.between. tauto.
Qed.

(** X17: with the two message queries answered from the archive,
    [/api/private-messages/:user1/:user2] gives the same answer whichever
    way round the two names come: 200 with at most 100 messages, each of
    them from one of the two to the other, oldest first. *)
Theorem X17_conversation_route_is_symmetric (o : Rest.models) a user1 user2 :
  Rest.answers_from a o →
  Rest.run o (Rest.private_messages_between user1 user2) =
    Rest.run o (Rest.private_messages_between user2 user1) ∧
  ∃ docs,
    Rest.run o (Rest.private_messages_between user1 user2) =
      Rest.Response 200 (Rest.PrivateMessagesBody docs) ∧
    (length docs ≤ 100)%nat ∧
    Forall (Rest.between user1 user2) docs ∧
    StronglySorted Rest.pm_not_after docs.
Proof.
  intros [_ Hprivate]. unfold Rest.private_messages_between. simpl.
  rewrite !Hprivate. split; [by rewrite conversation_symmetric|].
  eexists. split; [done|]. unfold Rest.conversation.
  split; [rewrite length_take; lia|]. split.
  - apply Forall_forall. intros m Hm. apply subseteq_take in Hm.
    rewrite merge_sort_Permutation in Hm. by apply list_elem_of_filter in Hm as [? _].
  - apply take_strongly_sorted, StronglySorted_merge_sort; apply _.
Qed.

(** Over the sample archive, alice and bob asked for either way round
    give their two messages by date, without the one alice sent carol. *)
Lemma X17_conversation_route_is_symmetric_witness :
  let talk :=
    Rest.Response 200
      (Rest.PrivateMessagesBody
         [PrivateData "alice" "bob" "hello" 30; PrivateData "bob" "alice" "reply" 40]) in
  Rest.run (Rest.models_over Rest.sample_archive)
    (Rest.private_messages_between "alice" "bob") = talk ∧
  Rest.run (Rest.models_over Rest.sample_archive)
    (Rest.private_messages_between "bob" "alice") = talk.
Proof.
  destruct (X17_conversation_route_is_symmetric (Rest.models_over Rest.sample_archive)
              Rest.sample_archive "alice" "bob" (models_over_answer _)) as [Hsym _].
  cbv zeta. rewrite <- Hsym. split; vm_compute; reflexivity.
Defined.

(** X18: a direct message whose save has succeeded is archived whether or
    not its recipient has a session, and is then in the conversation of
    sender and recipient, asked for either way round, when the archive
    held fewer than 100 messages between the two before. *)
Theorem X18_saved_direct_message_is_in_conversation w a sid u p now :
  JSObject.get sid (users w) = Some u →
  (length (filter (Rest.between (username u) (p_to_user p)) (private_messages a)) < 100)%nat →
  let d := PrivateData (username u) (p_to_user p) (p_message p) now in
  let cfg1 := (sys_inbound (Config w a []) sid (InPrivateMessage p now)).1 in
  let a' := cfg_archive (sys_settle cfg1 0 true).1 in
  private_messages a' = private_messages a ++ [d] ∧
  d ∈ Rest.conversation a' (username u) (p_to_user p) 100 ∧
  d ∈ Rest.conversation a' (p_to_user p) (username u) 100.
Proof.
  intros Hget Hfew. cbv zeta. unfold sys_inbound. simpl. unfold privateMessage.
  rewrite Hget. simpl. split; [done|].
  rewrite (conversation_symmetric _ (p_to_user p) (username u)).
  cut (∀ P : Prop, P → P ∧ P); [intros Hboth; apply Hboth | done].
  unfold Rest.conversation. simpl.
  rewrite filter_app, filter_cons_True, filter_nil by (left; done).
  rewrite take_ge.
  - rewrite merge_sort_Permutation. set_solver.
  - rewrite (Permutation_length (merge_sort_Permutation _ _)), length_app.
    cbn [length]. lia.
Qed.

(** alice writes to carol, who has no session; the archive was empty. *)
Lemma X18_saved_direct_message_is_in_conversation_witness :
  PrivateData "alice" "carol" "hi" 10 ∈
    Rest.conversation
      (cfg_archive
         (sys_settle
            (sys_inbound (Config sports_world (Archive [] []) []) "s1"
               (InPrivateMessage (PrivatePayload "carol" "hi") 10)).1 0 true).1)
      "carol" "alice" 100.
Proof.
  destruct (X18_saved_direct_message_is_in_conversation sports_world (Archive [] []) "s1"
              (Session "alice" "sports") (PrivatePayload "carol" "hi") 10)
    as (_ & _ & Hin); [reflexivity | simpl; lia |].
  exact Hin.
Defined.

(** * The identity of a socket *)

(** X19: the identity and the room under which a socket sends are those of
    its last join: after [joinRoom] with [{username, room}], a group
    message from the socket is stamped with that username and that room
    and goes to that room, and a direct message is stamped with that
    username, whatever session the socket had before. *)
Theorem X19_messages_carry_the_last_join w sid p t1 t2 t3 msg (q : private_payload) now :
  let w2 := (joinRoom w sid p t1 t2 t3).1.1 in
  let group := MessageData (j_username p) (Some (j_room p)) msg now in
  let direct := PrivateData (j_username p) (p_to_user q) (p_message q) now in
  (∃ k,
     chatMessage w2 sid msg now = (w2, [], Await (SaveGroup group) k) ∧
     ∀ reply w', emitted (k reply w') = [(ToRoom (j_room p), EvMessage group)]) ∧
  (∃ k,
     privateMessage w2 sid q now = (w2, [], Await (SavePrivate direct) k) ∧
     ∀ reply w', (ToSocket sid, EvPrivateMessage direct) ∈ emitted (k reply w')).
Proof.
  cbv zeta.
  assert (JSObject.get sid (users (joinRoom w sid p t1 t2 t3).1.1)
          = Some (Session (j_username p) (j_room p))) as Hme.
  { rewrite joinRoom_users. apply get_set_eq. }
  unfold chatMessage, privateMessage. rewrite Hme. simpl. split.
  - eexists. split; [reflexivity|]. intros reply w'. cbv beta. apply emitted_log.
  - eexists. split; [reflexivity|]. intros reply w'. cbv beta. rewrite emitted_log.
    destruct (JSObject.find_entry _ (users w')); simpl; set_solver.
Qed.

(** X20: the registry never outgrows the open connections: in every
    reachable world it has at most as many sessions as there are connected
    sockets. *)
Theorem X20_no_more_sessions_than_sockets w :
  reachable w → (length (users w) ≤ size (dom (sids w)))%nat.
Proof.
  intros Hw. destruct (reachable_invariant w Hw) as [Hwf Hcons].
  rewrite <- (length_fmap fst (users w)).
  apply submseteq_length, NoDup_submseteq; [exact Hwf|].
  intros c Hc. apply elem_of_elements, elem_of_dom.
  apply list_elem_of_fmap in Hc as ([c' s] & -> & Hin). simpl.
  apply (elem_get _ _ _ Hwf) in Hin. apply Hcons in Hin.
  unfold in_room in Hin. by destruct (sids w !! c').
Qed.

(** Two sessions and three sockets. *)
Lemma X20_no_more_sessions_than_sockets_witness :
  (length (users lurker_world) ≤ size (dom (sids lurker_world)))%nat.
Proof.
  apply (X20_no_more_sessions_than_sockets lurker_world).
  apply run_reachable. vm_compute. reflexivity.
Defined.
